(** * FinStart: the calculator engine and the store adapters of [server.py]

    A shallow embedding of the request handlers of [server.py] and of the
    collaborators they call, with the properties its specification states
    about them.

    Conventions of the embedding.
    - Python numbers (JSON integers and binary64 floats) are idealised as
      exact real numbers: [+], [-], [*] and [/] are the field operations,
      [x ** y] is the real power, [round(x, 2)] rounds the exact value to
      two decimals, ties to even.  Overflow, NaN and the rounding error of
      binary64 are outside the model.
    - A Python exception is a value of [exn]; a computation that may raise
      returns a [result].
    - A JSON / BSON value is a [value]; a dict or a stored document is a
      [gmap string value].
    - Strings are ASCII strings. *)

From Stdlib Require Import Reals Lra ZArith String Ascii.
From stdpp Require Import gmap strings list fin_maps.

Set Warnings "-register-all".

(** ** Values, exceptions and results *)

Inductive value : Type :=
  | VNull
  | VBool (b : bool)
  | VNum (x : R)
  | VStr (s : string)
  | VDate (t : Z)
  | VList (l : list value)
  | VDoc (d : gmap string value).

(** The exceptions the handlers can meet.  [UpstreamError msg] is an
    exception thrown by the text-generation collaborator whose [str] is
    [msg]; [WriteError] is the storage collaborator rejecting an update. *)
Inductive exn : Type :=
  | ZeroDivisionError
  | TypeError
  | AttributeError
  | WriteError
  | UpstreamError (msg : string)
  | HTTPException (status_code : nat) (detail : string).

Inductive result (A : Type) : Type :=
  | Ok (a : A)
  | Raise (e : exn).
Arguments Ok {A} a.
Arguments Raise {A} e.

#[global] Instance result_ret : MRet result := fun _ a => Ok a.
#[global] Instance result_bind : MBind result := fun _ _ f m =>
  match m with
  | Ok a => f a
  | Raise e => Raise e
  end.
#[global] Instance result_fmap : FMap result := fun _ _ f m =>
  match m with
  | Ok a => Ok (f a)
  | Raise e => Raise e
  end.

(** ** Python arithmetic on values *)

Section Arithmetic.
Local Open Scope R_scope.

(** [bool] is a subclass of [int]; every other non-number makes the
    arithmetic operators raise [TypeError].  (Python lets an [int] repeat a
    sequence with [*]; on every path of the engine the repeated sequence
    meets [-] or [**] next, so the [TypeError] is only delayed.) *)
Definition as_num (v : value) : result R :=
  match v with
  | VNum x => Ok x
  | VBool b => Ok (if b then 1 else 0)
  | _ => Raise TypeError
  end.

Definition py_add (a b : value) : result value :=
  x ← as_num a; y ← as_num b; Ok (VNum (x + y)).

Definition py_sub (a b : value) : result value :=
  x ← as_num a; y ← as_num b; Ok (VNum (x - y)).

Definition py_mul (a b : value) : result value :=
  x ← as_num a; y ← as_num b; Ok (VNum (x * y)).

(** [a / b]: true division. *)
Definition py_truediv (a b : value) : result value :=
  x ← as_num a; y ← as_num b;
  if Req_dec_T y 0 then Raise ZeroDivisionError else Ok (VNum (x / y)).

(** [x ** y] on numbers.  A negative base with a fractional exponent gives a
    complex number in Python; the engine hands it to [round] next, which
    raises [TypeError], so the model raises it here. *)
Definition pow_num (x y : R) : result R :=
  if Req_dec_T y 0 then Ok 1
  else if Rlt_dec 0 x then Ok (Rpower x y)
  else if Req_dec_T x 0 then
    (if Rlt_dec y 0 then Raise ZeroDivisionError else Ok 0)
  else if Req_dec_T (IZR (Int_part y)) y then Ok (powerRZ x (Int_part y))
  else Raise TypeError.

Definition py_pow (a b : value) : result value :=
  x ← as_num a; y ← as_num b; VNum <$> pow_num x y.

(** [a > b] and [a >= b]. *)
Definition py_gt (a b : value) : result bool :=
  x ← as_num a; y ← as_num b; Ok (if Rlt_dec y x then true else false).

Definition py_ge (a b : value) : result bool :=
  x ← as_num a; y ← as_num b; Ok (if Rle_dec y x then true else false).

(** Rounding to the nearest integer, ties to even. *)
Definition round_half_even (x : R) : Z :=
  let n := Int_part x in
  let f := frac_part x in
  if Rlt_dec f (1 / 2) then n
  else if Rlt_dec (1 / 2) f then (n + 1)%Z
  else if Z.even n then n else (n + 1)%Z.

(** [round(x, 2)]. *)
Definition round2 (x : R) : R := IZR (round_half_even (x * 100)) / 100.

Definition py_round2 (a : value) : result value :=
  x ← as_num a; Ok (VNum (round2 x)).

End Arithmetic.

(** ** The simulation engine: the five branches of [calculate_simulation] *)

Section Engine.
Local Open Scope string_scope.

Implicit Types inputs : gmap string value.

(** [inputs.get(key, dflt)] *)
Definition get (inputs : gmap string value) (key : string) (dflt : value) : value :=
  default dflt (inputs !! key).

Definition compound_interest inputs : result (gmap string value) :=
  let principal := get inputs "principal" (VNum 0) in
  rate ← py_truediv (get inputs "rate" (VNum 0)) (VNum 100);
  let time := get inputs "time" (VNum 0) in
  let frequency := get inputs "frequency" (VNum 12) in
  per_period ← py_truediv rate frequency;
  base ← py_add (VNum 1) per_period;
  periods ← py_mul frequency time;
  growth ← py_pow base periods;
  amount ← py_mul principal growth;
  interest ← py_sub amount principal;
  final_amount ← py_round2 amount;
  interest_earned ← py_round2 interest;
  positive ← py_gt principal (VNum 0);
  total_return_percentage ←
    (if positive : bool then
       ratio ← py_truediv interest principal;
       percent ← py_mul ratio (VNum 100);
       py_round2 percent
     else Ok (VNum 0));
  Ok (<["final_amount" := final_amount]>
      (<["interest_earned" := interest_earned]>
      (<["principal" := principal]>
      (<["total_return_percentage" := total_return_percentage]> ∅)))).

Definition simple_interest inputs : result (gmap string value) :=
  let principal := get inputs "principal" (VNum 0) in
  rate ← py_truediv (get inputs "rate" (VNum 0)) (VNum 100);
  let time := get inputs "time" (VNum 0) in
  pr ← py_mul principal rate;
  interest ← py_mul pr time;
  amount ← py_add principal interest;
  final_amount ← py_round2 amount;
  interest_earned ← py_round2 interest;
  Ok (<["final_amount" := final_amount]>
      (<["interest_earned" := interest_earned]>
      (<["principal" := principal]> ∅))).

Definition emi_calculator inputs : result (gmap string value) :=
  let principal := get inputs "principal" (VNum 0) in
  annual ← py_truediv (get inputs "rate" (VNum 0)) (VNum 100);
  rate ← py_truediv annual (VNum 12);
  let months := get inputs "months" (VNum 0) in
  charged ← py_gt rate (VNum 0);
  emi ←
    (if charged : bool then
       pr ← py_mul principal rate;
       base ← py_add (VNum 1) rate;
       growth ← py_pow base months;
       numerator ← py_mul pr growth;
       base' ← py_add (VNum 1) rate;
       growth' ← py_pow base' months;
       denominator ← py_sub growth' (VNum 1);
       py_truediv numerator denominator
     else
       some ← py_gt months (VNum 0);
       if some : bool then py_truediv principal months else Ok (VNum 0));
  total_payment ← py_mul emi months;
  total_interest ← py_sub total_payment principal;
  emi_r ← py_round2 emi;
  total_payment_r ← py_round2 total_payment;
  total_interest_r ← py_round2 total_interest;
  Ok (<["emi" := emi_r]>
      (<["total_payment" := total_payment_r]>
      (<["total_interest" := total_interest_r]>
      (<["principal" := principal]> ∅)))).

Definition sip_calculator inputs : result (gmap string value) :=
  let monthly_investment := get inputs "monthly_investment" (VNum 0) in
  annual ← py_truediv (get inputs "rate" (VNum 0)) (VNum 100);
  rate ← py_truediv annual (VNum 12);
  let months := get inputs "months" (VNum 0) in
  growing ← py_gt rate (VNum 0);
  future_value ←
    (if growing : bool then
       base ← py_add (VNum 1) rate;
       growth ← py_pow base months;
       gain ← py_sub growth (VNum 1);
       series ← py_truediv gain rate;
       paid ← py_mul monthly_investment series;
       base' ← py_add (VNum 1) rate;
       py_mul paid base'
     else py_mul monthly_investment months);
  total_invested ← py_mul monthly_investment months;
  returns ← py_sub future_value total_invested;
  future_value_r ← py_round2 future_value;
  total_invested_r ← py_round2 total_invested;
  returns_r ← py_round2 returns;
  invested ← py_gt total_invested (VNum 0);
  return_percentage ←
    (if invested : bool then
       ratio ← py_truediv returns total_invested;
       percent ← py_mul ratio (VNum 100);
       py_round2 percent
     else Ok (VNum 0));
  Ok (<["future_value" := future_value_r]>
      (<["total_invested" := total_invested_r]>
      (<["returns" := returns_r]>
      (<["return_percentage" := return_percentage]> ∅)))).

(** [sum(expenses.values())]: only a dict has [values]. *)
Definition sum_values (expenses : value) : result value :=
  match expenses with
  | VDoc d => map_fold (fun _ v acc => a ← acc; py_add a v) (Ok (VNum 0)) d
  | _ => Raise AttributeError
  end.

Definition budget_builder inputs : result (gmap string value) :=
  let income := get inputs "income" (VNum 0) in
  let expenses := get inputs "expenses" (VDoc ∅) in
  total_expenses ← sum_values expenses;
  savings ← py_sub income total_expenses;
  earning ← py_gt income (VNum 0);
  savings_rate ←
    (if earning : bool then
       ratio ← py_truediv savings income;
       py_mul ratio (VNum 100)
     else Ok (VNum 0));
  total_expenses_r ← py_round2 total_expenses;
  savings_r ← py_round2 savings;
  savings_rate_r ← py_round2 savings_rate;
  surplus ← py_ge savings (VNum 0);
  Ok (<["income" := income]>
      (<["total_expenses" := total_expenses_r]>
      (<["savings" := savings_r]>
      (<["savings_rate" := savings_rate_r]>
      (<["status" := VStr (if surplus : bool then "surplus" else "deficit")]> ∅))))).

(** The [if]/[elif] chain on [sim_type]; [result = {}] when no branch is
    taken. *)
Definition simulation_outputs (sim_type : string) inputs : result (gmap string value) :=
  if sim_type =? "compound_interest" then compound_interest inputs
  else if sim_type =? "simple_interest" then simple_interest inputs
  else if sim_type =? "emi_calculator" then emi_calculator inputs
  else if sim_type =? "sip_calculator" then sip_calculator inputs
  else if sim_type =? "budget_builder" then budget_builder inputs
  else Ok ∅.

End Engine.

(** ** The storage collaborator

    Three collections of documents.  Only the operations the handlers call
    are modelled, each with the filter and the update operators the handlers
    pass.  The [_id] the store adds to an inserted document is left out: no
    filter mentions it and the handlers delete it from what they return. *)

Section Store.
Local Open Scope string_scope.

Record db : Type := Db {
  lessons : list (gmap string value);
  progress : list (gmap string value);
  simulations : list (gmap string value)
}.

Implicit Types d : gmap string value.
Implicit Types c : list (gmap string value).

Definition is_str (s : string) (v : value) : bool :=
  match v with
  | VStr s' => s' =? s
  | _ => false
  end.

(** The filter [{field: s}]: the field holds [s], or an array with [s] in
    it. *)
Definition matches (field s : string) d : bool :=
  match d !! field with
  | Some (VList l) => existsb (is_str s) l
  | Some v => is_str s v
  | None => false
  end.

(** [find_one({field: s})] *)
Definition find_one (field s : string) c : option (gmap string value) :=
  List.find (matches field s) c.

(** [find({field: s}).to_list(n)] *)
Definition find_to_list (field s : string) (n : nat) c : list (gmap string value) :=
  take n (List.filter (matches field s) c).

(** [insert_one(d)] *)
Definition insert_one d c : list (gmap string value) := c ++ [d].

(** [update_one({field: s}, update, upsert=True)]: the first match is
    updated; without a match the update is applied to a new document made of
    the filter. *)
Fixpoint update_one (field s : string)
    (update : gmap string value -> result (gmap string value)) c
    : result (list (gmap string value)) :=
  match c with
  | [] => d' ← update {[field := VStr s]}; Ok [d']
  | d :: c' =>
      if matches field s d then d' ← update d; Ok (d' :: c')
      else c'' ← update_one field s update c'; Ok (d :: c'')
  end.

(** The document [update_one] works on: the first match, or the filter
    itself when there is none. *)
Definition target (field s : string) c : gmap string value :=
  default {[field := VStr s]} (find_one field s c).

(** [{"$set": fields}] with top-level field names. *)
Definition set_fields (fields : gmap string value) d : gmap string value :=
  fields ∪ d.

(** [{"$addToSet": {field: s}}] *)
Definition add_to_set (field s : string) d : result (gmap string value) :=
  match d !! field with
  | None => Ok (<[field := VList [VStr s]]> d)
  | Some (VList l) =>
      if existsb (is_str s) l then Ok d
      else Ok (<[field := VList (l ++ [VStr s])]> d)
  | Some _ => Raise WriteError
  end.

(** The components of a dotted field path. *)
Fixpoint split_dots (s : string) : list string :=
  match s with
  | EmptyString => [EmptyString]
  | String a s' =>
      if Ascii.eqb a "." then EmptyString :: split_dots s'
      else match split_dots s' with
           | [] => [String a EmptyString]
           | p :: ps => String a p :: ps
           end
  end.

(** [{"$set": {path: v}}] with a dotted path: embedded documents are
    entered and created on the way; an empty field name, or a value on the
    way that holds no fields, is rejected.  (The store also enters arrays by
    position; [submit_quiz] is the only writer below [quiz_scores] and
    writes no array, so that case is left out and rejected here.) *)
Fixpoint set_path (path : list string) (v : value) d : result (gmap string value) :=
  match path with
  | [] => Raise WriteError
  | p :: rest =>
      if p =? "" then Raise WriteError
      else match rest with
           | [] => Ok (<[p := v]> d)
           | _ :: _ =>
               match d !! p with
               | None => d' ← set_path rest v ∅; Ok (<[p := VDoc d']> d)
               | Some (VDoc sub) => d' ← set_path rest v sub; Ok (<[p := VDoc d']> d)
               | Some _ => Raise WriteError
               end
           end
  end.

End Store.

(** ** String helpers: [str.lower] and [str.replace] on ASCII text *)

Section Strings.

Definition lower_ascii (a : ascii) : ascii :=
  let n := nat_of_ascii a in
  if (65 <=? n)%nat && (n <=? 90)%nat then ascii_of_nat (n + 32) else a.

Fixpoint map_string (f : ascii -> ascii) (s : string) : string :=
  match s with
  | EmptyString => EmptyString
  | String a s' => String (f a) (map_string f s')
  end.

(** [s.lower()] *)
Definition lower (s : string) : string := map_string lower_ascii s.

(** [s.replace(old, new)] for single characters. *)
Definition replace (old new : ascii) (s : string) : string :=
  map_string (fun a => if Ascii.eqb a old then new else a) s.

End Strings.

(** ** Request bodies *)

Record LessonGenerateRequest : Type := {
  lgr_module_id : string;
  lgr_topic : string;
  lgr_difficulty : string
}.

Record QuizSubmission : Type := {
  qs_lesson_id : string;
  qs_answers : gmap string string;
  qs_score : R
}.

Record SimulationResult : Type := {
  simulation_type : string;
  inputs : gmap string value;
  outputs : gmap string value
}.

(** What a request finds outside the program: the clock read by
    [datetime.utcnow()], the credential in the environment variable
    [EMERGENT_LLM_KEY], and the reply of the text-generation collaborator to
    the prompt built from a topic and a difficulty (its answer text, or the
    exception it throws). *)
Record env : Type := Env {
  now : Z;
  api_key : option string;
  send_message : string -> string -> result string
}.

(** ** The handlers *)

Section Handlers.
Local Open Scope string_scope.

(** [json.loads]: the parsed value, or [None] when it raises. *)
Variable json_loads : string -> option value.

(** [str(e)] of an exception. *)
Variable exn_str : exn -> string.

Definition fallback_lesson (topic response : string) : gmap string value :=
  <["title" := VStr topic]>
  (<["content" := VStr (substring 0 400 response)]>
  (<["key_points" := VList [VStr "Understand the basics";
                            VStr "Apply in real life";
                            VStr "Track progress"]]>
  (<["real_example" := VStr "Example scenario based on this concept."]>
  (<["daily_tip" := VStr "Start small and stay consistent."]> ∅)))).

Definition generate_lesson_content (e : env) (topic difficulty : string) : result value :=
  let attempt : result value :=
    match api_key e with
    | None => Raise (HTTPException 500 "API key not configured")
    | Some key =>
        if key =? "" then Raise (HTTPException 500 "API key not configured")
        else
          response ← send_message e topic difficulty;
          Ok (match json_loads response with
              | Some lesson_data => lesson_data
              | None => VDoc (fallback_lesson topic response)
              end)
    end in
  match attempt with
  | Ok lesson_data => Ok lesson_data
  | Raise ex =>
      Raise (HTTPException 500 ("Failed to generate lesson: " ++ exn_str ex))
  end.

(** [lesson_content.get(key, dflt)]: only a dict has [get]. *)
Definition content_get (lesson_content : value) (key : string) (dflt : value) : result value :=
  match lesson_content with
  | VDoc d => Ok (get d key dflt)
  | _ => Raise AttributeError
  end.

Definition lesson_id_of (module_id topic : string) : string :=
  module_id ++ "_" ++ replace " " "_" (lower topic).

Definition build_lesson (e : env) (request : LessonGenerateRequest)
    (lesson_content : value) : result (gmap string value) :=
  let lesson_id := lesson_id_of (lgr_module_id request) (lgr_topic request) in
  title ← content_get lesson_content "title" (VStr (lgr_topic request));
  content ← content_get lesson_content "content" (VStr "");
  key_points ← content_get lesson_content "key_points" (VList []);
  real_example ← content_get lesson_content "real_example" (VStr "");
  daily_tip ← content_get lesson_content "daily_tip" (VStr "");
  Ok (<["id" := VStr lesson_id]>
      (<["module_id" := VStr (lgr_module_id request)]>
      (<["title" := title]>
      (<["content" := content]>
      (<["duration_minutes" := VNum 3]>
      (<["key_points" := key_points]>
      (<["real_example" := real_example]>
      (<["quiz_questions" := VList []]>
      (<["daily_tip" := daily_tip]>
      (<["order" := VNum 1]>
      (<["created_at" := VDate (now e)]> ∅))))))))))).

Definition generate_lesson (e : env) (request : LessonGenerateRequest) (s : db)
    : result (gmap string value) * db :=
  match
    lesson_content ←
      generate_lesson_content e (lgr_topic request) (lgr_difficulty request);
    build_lesson e request lesson_content
  with
  | Raise ex => (Raise ex, s)
  | Ok lesson =>
      let lesson_id := lesson_id_of (lgr_module_id request) (lgr_topic request) in
      match update_one "id" lesson_id (fun d => Ok (set_fields lesson d)) (lessons s) with
      | Raise ex => (Raise ex, s)
      | Ok lessons' => (Ok lesson, Db lessons' (progress s) (simulations s))
      end
  end.

Definition get_module_lessons (module_id : string) (s : db)
    : result (list (gmap string value)) * db :=
  (Ok (find_to_list "module_id" module_id 100 (lessons s)), s).

Definition get_lesson (lesson_id : string) (s : db) : result (gmap string value) * db :=
  match find_one "id" lesson_id (lessons s) with
  | None => (Raise (HTTPException 404 "Lesson not found"), s)
  | Some lesson => (Ok lesson, s)
  end.

Definition default_progress (e : env) : gmap string value :=
  <["user_id" := VStr "default_user"]>
  (<["completed_lessons" := VList []]>
  (<["quiz_scores" := VDoc ∅]>
  (<["simulations_completed" := VList []]>
  (<["last_active" := VDate (now e)]> ∅)))).

Definition get_progress (e : env) (s : db) : result (gmap string value) * db :=
  match find_one "user_id" "default_user" (progress s) with
  | Some found => (Ok found, s)
  | None =>
      let created := default_progress e in
      (Ok created, Db (lessons s) (insert_one created (progress s)) (simulations s))
  end.

(** The update document of [complete_lesson]:
    [$addToSet] on [completed_lessons], [$set] on [last_active]. *)
Definition completion (e : env) (lesson_id : string) (d : gmap string value)
    : result (gmap string value) :=
  d' ← add_to_set "completed_lessons" lesson_id d;
  Ok (set_fields {["last_active" := VDate (now e)]} d').

Definition complete_lesson (e : env) (lesson_id : string) (s : db)
    : result (gmap string value) * db :=
  match update_one "user_id" "default_user" (completion e lesson_id) (progress s) with
  | Raise ex => (Raise ex, s)
  | Ok progress' =>
      (Ok (<["success" := VBool true]> (<["lesson_id" := VStr lesson_id]> ∅)),
       Db (lessons s) progress' (simulations s))
  end.

(** The update document of [submit_quiz]: [$set] on the dotted path
    [quiz_scores.<lesson_id>] and on [last_active]. *)
Definition grading (e : env) (submission : QuizSubmission) (d : gmap string value)
    : result (gmap string value) :=
  d' ← set_path (split_dots ("quiz_scores." ++ qs_lesson_id submission))
                (VNum (qs_score submission)) d;
  Ok (set_fields {["last_active" := VDate (now e)]} d').

Definition submit_quiz (e : env) (submission : QuizSubmission) (s : db)
    : result (gmap string value) * db :=
  match update_one "user_id" "default_user" (grading e submission) (progress s) with
  | Raise ex => (Raise ex, s)
  | Ok progress' =>
      (Ok (<["score" := VNum (qs_score submission)]>
           (<["lesson_id" := VStr (qs_lesson_id submission)]> ∅)),
       Db (lessons s) progress' (simulations s))
  end.

Definition calculate_simulation (e : env) (simulation : SimulationResult) (s : db)
    : result (gmap string value) * db :=
  let sim_type := simulation_type simulation in
  let inputs := inputs simulation in
  match simulation_outputs sim_type inputs with
  | Raise ex => (Raise ex, s)
  | Ok result =>
      let entry : gmap string value :=
        <["user_id" := VStr "default_user"]>
        (<["simulation_type" := VStr sim_type]>
        (<["inputs" := VDoc inputs]>
        (<["outputs" := VDoc result]>
        (<["created_at" := VDate (now e)]> ∅)))) in
      (Ok result, Db (lessons s) (progress s) (insert_one entry (simulations s)))
  end.

(** The requests that reach the store.  The three remaining routes, [root],
    [get_modules] and [get_scenario], return constants and never touch it. *)
Inductive request : Type :=
  | GetModuleLessons (module_id : string)
  | GetLesson (lesson_id : string)
  | GenerateLesson (body : LessonGenerateRequest)
  | GetProgress
  | CompleteLesson (lesson_id : string)
  | SubmitQuiz (body : QuizSubmission)
  | CalculateSimulation (body : SimulationResult).

(** The store after a request has been served. *)
Definition serve (e : env) (r : request) (s : db) : db :=
  match r with
  | GetModuleLessons module_id => snd (get_module_lessons module_id s)
  | GetLesson lesson_id => snd (get_lesson lesson_id s)
  | GenerateLesson body => snd (generate_lesson e body s)
  | GetProgress => snd (get_progress e s)
  | CompleteLesson lesson_id => snd (complete_lesson e lesson_id s)
  | SubmitQuiz body => snd (submit_quiz e body s)
  | CalculateSimulation body => snd (calculate_simulation e body s)
  end.

End Handlers.

(** ** Scenario advice: [get_scenario]

    The advice texts are Python strings with a rupee sign; here they are the
    bytes of their UTF-8 encoding. *)

Section Scenarios.
Local Open Scope string_scope.

(** [format(x, ".2f")], the conversion the f-string applies. *)
Variable format_2f : R -> string.

Definition texts (l : list string) : value := VList (VStr <$> l).

Definition student_scenario : gmap string value :=
  <["title" := VStr "Student Financial Scenario"]>
  (<["advice" := texts
       ["Focus on building emergency fund (3 months expenses)";
        "Start with small savings habit (10-20% of any income)";
        "Avoid unnecessary debt, especially consumer loans";
        "Learn about compound interest early"]]>
  (<["suggested_actions" := texts
       ["Open a basic savings account";
        "Track all expenses for one month";
        "Set up automatic savings transfer"]]> ∅)).

Definition first_job_scenario (income : R) : gmap string value :=
  <["title" := VStr "First Job Financial Scenario"]>
  (<["advice" := texts
       ["Build 6-month emergency fund";
        "Start retirement savings immediately (even small amounts)";
        "Avoid lifestyle inflation";
        "Save at least 20% of income: ₹" ++ format_2f (income * 0.2)%R]]>
  (<["suggested_actions" := texts
       ["Set up automatic investment (SIP) of ₹500-1000/month";
        "Get health insurance";
        "Create and follow a budget"]]> ∅)).

Definition tax_planning_scenario : gmap string value :=
  <["title" := VStr "Legal Tax Planning"]>
  (<["advice" := texts
       ["Utilize Section 80C deductions (up to ₹1.5 lakh)";
        "Consider PPF, ELSS, or EPF contributions";
        "Keep records of all tax-saving investments";
        "File returns on time to avoid penalties"]]>
  (<["disclaimer" := VStr "This is educational information only. Consult a tax professional for personalized advice. Never engage in tax evasion - it is illegal."]> ∅)).

Definition scenarios (income : R) : gmap string (gmap string value) :=
  <["student" := student_scenario]>
  (<["first_job" := first_job_scenario income]>
  (<["tax_planning" := tax_planning_scenario]> ∅)).

(** [scenarios.get(scenario_type, scenarios["student"])] *)
Definition get_scenario (scenario_type : string) (income : R) (age : Z)
    : gmap string value :=
  default (scenarios income !!! "student") (scenarios income !! scenario_type).

End Scenarios.

(** ** Observations and specification-side definitions *)

Section Observations.
Local Open Scope string_scope.

(** The five kinds the engine recognises. *)
Definition recognized_kinds : list string :=
  ["compound_interest"; "simple_interest"; "emi_calculator";
   "sip_calculator"; "budget_builder"].

(** The number under [final_amount] in what a simulation returns. *)
Definition final_amount (r : result (gmap string value)) : option R :=
  match r with
  | Ok outputs =>
      match outputs !! "final_amount" with
      | Some (VNum x) => Some x
      | _ => None
      end
  | Raise _ => None
  end.


(** The slug as the specification words it: lowercase, spaces to
    underscores; and the lesson id it describes, with both parts slugified. *)
Definition spec_slug (s : string) : string := replace " " "_" (lower s).

Definition spec_lesson_id (module_id topic : string) : string :=
  spec_slug module_id ++ "_" ++ spec_slug topic.

(** The fields of the lesson [generate_lesson] builds. *)
Definition lesson_fields : gset string :=
  {[ "id"; "module_id"; "title"; "content"; "duration_minutes"; "key_points";
     "real_example"; "quiz_questions"; "daily_tip"; "order"; "created_at" ]}.

(** The progress record of the single implicit user. *)
Definition user_progress (s : db) : option (gmap string value) :=
  find_one "user_id" "default_user" (progress s).

Definition completed_lessons (s : db) : list value :=
  match user_progress s with
  | Some d =>
      match d !! "completed_lessons" with
      | Some (VList l) => l
      | _ => []
      end
  | None => []
  end.

Definition last_active (s : db) : option value :=
  user_progress s ≫= fun d => d !! "last_active".

(** The [simulations_completed] field of every progress document, in
    store order. *)
Definition simulations_completed_fields (s : db) : list (option value) :=
  (fun d : gmap string value => d !! "simulations_completed") <$> progress s.

(** A progress document as the data model has it: [completed_lessons] is
    missing (a record no completion has touched) or a list without
    duplicates. *)
Definition doc_ok (d : gmap string value) : Prop :=
  match d !! "completed_lessons" with
  | None => True
  | Some (VList l) => NoDup l
  | Some _ => False
  end.

Definition progress_ok (s : db) : Prop := Forall doc_ok (progress s).

(** The stores the handlers can build from [s0]. *)
Inductive reachable (json_loads : string -> option value)
    (exn_str : exn -> string) (s0 : db) : db -> Prop :=
  | reachable_start : reachable json_loads exn_str s0 s0
  | reachable_serve e r s :
      reachable json_loads exn_str s0 s ->
      reachable json_loads exn_str s0 (serve json_loads exn_str e r s).

End Observations.

(** ** Further observations *)

Section MoreObservations.
Local Open Scope string_scope.




(** At most one progress record, and it is the implicit user's. *)
Definition single_user (s : db) : Prop :=
  (List.length (progress s) <= 1)%nat /\
  Forall (fun d => matches "user_id" "default_user" d = true) (progress s).

(** The ids of the stored lessons, in store order. *)
Definition lesson_ids (s : db) : list (option value) :=
  (fun d : gmap string value => d !! "id") <$> lessons s.

(** Every stored lesson has a string id, and no two share one. *)
Definition unique_ids (s : db) : Prop :=
  exists ids : list string,
    lesson_ids s = (fun i => Some (VStr i)) <$> ids /\ NoDup ids.

(** The number a value stands for in a sum, and the sum of the amounts of
    an expenses mapping. *)
Definition number_of (v : value) : R :=
  match as_num v with
  | Ok x => x
  | Raise _ => 0%R
  end.

Definition numbers_total (d : gmap string value) : R :=
  foldr (fun kv acc => (acc + number_of kv.2)%R) 0%R (map_to_list d).

Definition all_numbers (d : gmap string value) : Prop :=
  map_Forall (fun _ v => exists x, as_num v = Ok x) d.


End MoreObservations.

(** ** Sample stores, environments and requests *)

Section Samples.
Local Open Scope string_scope.
Local Open Scope R_scope.

Definition empty_db : db := Db [] [] [].

(** No credential, and a collaborator that cannot be reached. *)
Definition offline_env : env :=
  Env 0 None (fun _ _ => Raise (UpstreamError "connection refused")).

(** A credential, and a collaborator that answers in prose. *)
Definition prose_env (t : Z) : env :=
  Env t (Some "sk-test") (fun topic _ => Ok ("Here is a lesson about " ++ topic)%string).

(** A credential, and a collaborator that throws [ex]. *)
Definition failing_env (ex : exn) : env :=
  Env 0 (Some "sk-test") (fun _ _ => Raise ex).

(** A parser that accepts nothing, and the [str] of an exception as
    Starlette 0.27 and later print it. *)
Definition reject_all (text : string) : option value := None.

Definition sample_exn_str (ex : exn) : string :=
  match ex with
  | ZeroDivisionError => "float division by zero"
  | TypeError => "unsupported operand type"
  | AttributeError => "object has no attribute"
  | WriteError => "write error"
  | UpstreamError msg => msg
  | HTTPException 500 detail => ("500: " ++ detail)%string
  | HTTPException _ detail => detail
  end.

Definition zero_months_inputs : gmap string value :=
  <["principal" := VNum 1000]> (<["rate" := VNum 10]>
  (<["months" := VNum 0]> ∅)).

Definition interest_free_inputs : gmap string value :=
  <["principal" := VNum 1000]> (<["rate" := VNum 0]>
  (<["months" := VNum 10]> ∅)).



Definition simulation_of (kind : string) (inputs : gmap string value) : SimulationResult :=
  {| simulation_type := kind; inputs := inputs; outputs := ∅ |}.

Definition lesson_request (module_id topic : string) : LessonGenerateRequest :=
  {| lgr_module_id := module_id; lgr_topic := topic; lgr_difficulty := "beginner" |}.

(** A parser that reads every reply as [v]. *)
Definition parse_as (v : value) (text : string) : option value := Some v.

(** A formatter for amounts, enough for the samples. *)
Definition sample_format (x : R) : string := "10000.00".






Definition listed_expenses_inputs : gmap string value :=
  <["income" := VNum 50000]> (<["expenses" := VList [VNum 20000]]> ∅).

Definition no_frequency_inputs : gmap string value :=
  <["principal" := VNum 1000]> (<["rate" := VNum 10]>
  (<["time" := VNum 1]> (<["frequency" := VNum 0]> ∅))).

Definition text_rate_inputs : gmap string value :=
  <["principal" := VNum 1000]> (<["rate" := VStr "ten"]> ∅).

(** A store with one seeded lesson that carries a field of its own. *)
Definition seeded_lesson : gmap string value :=
  <["id" := VStr "money-basics_saving"]>
  (<["examples" := VList [VStr "A piggy bank"]]> ∅).

Definition seeded_db : db := Db [seeded_lesson] [] [].

Definition quiz_of (lesson_id : string) (score : R) : QuizSubmission :=
  {| qs_lesson_id := lesson_id; qs_answers := ∅; qs_score := score |}.

End Samples.

(** * Properties *)

(** ** Arithmetic facts the engine relies on *)

Section ArithmeticFacts.
Local Open Scope R_scope.

Lemma pow_num_zero_exponent x : pow_num x 0 = Ok 1.
Proof. unfold pow_num. destruct (Req_dec_T 0 0); [reflexivity | contradiction]. Qed.

Lemma Int_part_IZR z : Int_part (IZR z) = z.
Proof. symmetry. apply Int_part_spec. lra. Qed.

Lemma frac_part_IZR z : frac_part (IZR z) = 0.
Proof. unfold frac_part. rewrite Int_part_IZR. lra. Qed.

Lemma round_half_even_IZR z : round_half_even (IZR z) = z.
Proof.
  unfold round_half_even. rewrite frac_part_IZR, Int_part_IZR.
  destruct (Rlt_dec 0 (1 / 2)); [reflexivity | lra].
Qed.







End ArithmeticFacts.

(** ** The operators on numbers *)

Section OperatorFacts.
Local Open Scope R_scope.

Lemma pow_num_positive x y : 0 < x -> pow_num x y = Ok (Rpower x y).
Proof.
  intros Hx. unfold pow_num.
  destruct (Req_dec_T y 0) as [-> | _].
  - rewrite Rpower_O by assumption. reflexivity.
  - destruct (Rlt_dec 0 x); [reflexivity | contradiction].
Qed.

Lemma as_num_VNum x : as_num (VNum x) = Ok x.
Proof. reflexivity. Qed.

Variables (a b : value) (x y : R).
Hypothesis Ha : as_num a = Ok x.
Hypothesis Hb : as_num b = Ok y.

Lemma py_add_num : py_add a b = Ok (VNum (x + y)).
Proof. unfold py_add. rewrite Ha, Hb. reflexivity. Qed.

Lemma py_sub_num : py_sub a b = Ok (VNum (x - y)).
Proof. unfold py_sub. rewrite Ha, Hb. reflexivity. Qed.

Lemma py_mul_num : py_mul a b = Ok (VNum (x * y)).
Proof. unfold py_mul. rewrite Ha, Hb. reflexivity. Qed.

Lemma py_truediv_num : y <> 0 -> py_truediv a b = Ok (VNum (x / y)).
Proof.
  intros Hy. unfold py_truediv. rewrite Ha, Hb. cbn.
  destruct (Req_dec_T y 0); [contradiction | reflexivity].
Qed.

Lemma py_truediv_zero : y = 0 -> py_truediv a b = Raise ZeroDivisionError.
Proof.
  intros Hy. unfold py_truediv. rewrite Ha, Hb. cbn.
  destruct (Req_dec_T y 0); [reflexivity | contradiction].
Qed.

Lemma py_pow_num g : pow_num x y = Ok g -> py_pow a b = Ok (VNum g).
Proof. intros Hg. unfold py_pow. rewrite Ha, Hb. cbn. rewrite Hg. reflexivity. Qed.

Lemma py_gt_true : y < x -> py_gt a b = Ok true.
Proof.
  intros H. unfold py_gt. rewrite Ha, Hb. cbn.
  destruct (Rlt_dec y x); [reflexivity | contradiction].
Qed.

Lemma py_gt_false : x <= y -> py_gt a b = Ok false.
Proof.
  intros H. unfold py_gt. rewrite Ha, Hb. cbn.
  destruct (Rlt_dec y x); [lra | reflexivity].
Qed.

Lemma py_round2_num : py_round2 a = Ok (VNum (round2 x)).
Proof. unfold py_round2. rewrite Ha. reflexivity. Qed.

End OperatorFacts.

(** One step of a branch of the engine: the next operator is applied to
    numbers and the bind around it is reduced. *)
Ltac num_side :=
  first [ eassumption | apply as_num_VNum | lra
        | apply pow_num_zero_exponent | apply pow_num_positive; lra ].
Ltac py_step :=
  first
    [ erewrite py_truediv_num by num_side
    | erewrite py_truediv_zero by num_side
    | erewrite py_add_num by num_side
    | erewrite py_sub_num by num_side
    | erewrite py_mul_num by num_side
    | erewrite py_gt_true by num_side
    | erewrite py_gt_false by num_side
    | erewrite py_round2_num by num_side
    | erewrite py_pow_num by num_side ];
  cbn [mbind result_bind].

Section EngineFacts.
Local Open Scope R_scope.
Local Open Scope string_scope.

Lemma round2_zero : round2 0 = 0.
Proof.
  unfold round2. replace (0 * 100) with (IZR 0) by lra.
  rewrite round_half_even_IZR. lra.
Qed.

Lemma emi_zero_months_charged inputs P Rt :
  as_num (get inputs "principal" (VNum 0)) = Ok P ->
  as_num (get inputs "rate" (VNum 0)) = Ok Rt -> 0 < Rt ->
  as_num (get inputs "months" (VNum 0)) = Ok 0 ->
  emi_calculator inputs = Raise ZeroDivisionError.
Proof.
  intros HP HR Hpos HM. unfold emi_calculator.
  repeat py_step. reflexivity.
Qed.

Lemma emi_zero_months_free inputs P Rt :
  as_num (get inputs "principal" (VNum 0)) = Ok P ->
  as_num (get inputs "rate" (VNum 0)) = Ok Rt -> Rt <= 0 ->
  as_num (get inputs "months" (VNum 0)) = Ok 0 ->
  exists outputs, emi_calculator inputs = Ok outputs /\ outputs !! "emi" = Some (VNum 0).
Proof.
  intros HP HR Hpos HM. unfold emi_calculator.
  repeat py_step.
  eexists. split; [reflexivity |].
  rewrite lookup_insert_eq. rewrite round2_zero. reflexivity.
Qed.




End EngineFacts.

(** ** The simulation handler *)

Section SimulationFacts.
Local Open Scope R_scope.
Local Open Scope string_scope.


Lemma calculate_simulation_raises e sim s ex :
  simulation_outputs (simulation_type sim) (inputs sim) = Raise ex ->
  calculate_simulation e sim s = (Raise ex, s).
Proof. intros H. unfold calculate_simulation. rewrite H. reflexivity. Qed.

(** C1, the part the code breaks: with [months] zero (or missing) and a
    positive rate, the EMI branch divides by [(1 + r) ** 0 - 1], so the
    request raises [ZeroDivisionError] and nothing is logged. *)
Theorem emi_zero_months_positive_rate_raises e sim s P Rt :
  simulation_type sim = "emi_calculator" ->
  as_num (get (inputs sim) "principal" (VNum 0)) = Ok P ->
  as_num (get (inputs sim) "rate" (VNum 0)) = Ok Rt ->
  0 < Rt ->
  as_num (get (inputs sim) "months" (VNum 0)) = Ok 0 ->
  calculate_simulation e sim s = (Raise ZeroDivisionError, s).
Proof.
  intros Hkind HP HR Hpos HM. apply calculate_simulation_raises.
  rewrite Hkind. change (emi_calculator (inputs sim) = Raise ZeroDivisionError).
  eapply emi_zero_months_charged; eassumption.
Qed.

(** C2: a kind outside the five returns the empty mapping and appends one
    history entry with the user, the kind, the inputs, the empty outputs
    and the time of the call. *)
Theorem unrecognized_kind_empty_and_logged e sim s :
  simulation_type sim ∉ recognized_kinds ->
  calculate_simulation e sim s =
    (Ok ∅,
     Db (lessons s) (progress s)
        (simulations s ++
         [<["user_id" := VStr "default_user"]>
          (<["simulation_type" := VStr (simulation_type sim)]>
          (<["inputs" := VDoc (inputs sim)]>
          (<["outputs" := VDoc ∅]>
          (<["created_at" := VDate (now e)]> ∅))))])).
Proof.
  intros Hkind. unfold calculate_simulation, simulation_outputs.
  unfold recognized_kinds in Hkind.
  repeat match goal with
  | |- context [(?a =? ?b)%string] =>
      destruct (String.eqb_spec a b) as [Heq | _];
      [exfalso; apply Hkind; rewrite Heq; set_solver |]
  end.
  reflexivity.
Qed.



End SimulationFacts.

(** ** The storage collaborator: finding and updating *)

Section StoreFacts.
Local Open Scope string_scope.

Implicit Types d : gmap string value.
Implicit Types c : list (gmap string value).

Lemma is_str_true s v : is_str s v = true <-> v = VStr s.
Proof.
  destruct v; cbn; try (split; [discriminate | intros [=]]).
  rewrite String.eqb_eq. split; [intros -> | intros [=]]; congruence.
Qed.

Lemma existsb_is_str s l : existsb (is_str s) l = true <-> In (VStr s) l.
Proof.
  rewrite existsb_exists. split.
  - intros (v & Hin & Hv). apply is_str_true in Hv. congruence.
  - intros Hin. exists (VStr s). split; [assumption | by apply is_str_true].
Qed.

Lemma matches_filter field s : matches field s {[field := VStr s]} = true.
Proof.
  unfold matches. rewrite lookup_singleton_eq. cbn. apply String.eqb_refl.
Qed.

Lemma matches_target field s c : matches field s (target field s c) = true.
Proof.
  unfold target, find_one. destruct (find _ c) as [d |] eqn:Hfind; cbn.
  - by apply find_some in Hfind as [_ ?].
  - apply matches_filter.
Qed.

Lemma find_one_skip field s pre d post :
  Forall (fun x => matches field s x = false) pre ->
  matches field s d = true ->
  find_one field s (pre ++ d :: post)%list = Some d.
Proof.
  intros Hpre Hd. unfold find_one. induction Hpre as [| x pre Hx _ IH]; cbn.
  - by rewrite Hd.
  - by rewrite Hx.
Qed.

Lemma find_one_none field s c :
  find_one field s c = None <-> Forall (fun x => matches field s x = false) c.
Proof.
  unfold find_one. induction c as [| x c IH]; cbn.
  - split; [constructor | done].
  - destruct (matches field s x) eqn:Hx.
    + split; [done |]. intros H. apply Forall_cons in H as [? _]. congruence.
    + rewrite IH. split; [by constructor |]. by intros [_ ?]%Forall_cons.
Qed.

(** What a successful [update_one] did: it updated the first match in
    place, or appended the updated filter. *)
Lemma update_one_inv field s update c c' :
  update_one field s update c = Ok c' ->
  exists d', update (target field s c) = Ok d' /\
    ((find_one field s c = None /\ c' = (c ++ [d'])%list) \/
     (exists pre d post,
        c = (pre ++ d :: post)%list /\ find_one field s c = Some d /\
        Forall (fun x => matches field s x = false) pre /\
        c' = (pre ++ d' :: post)%list)).
Proof.
  revert c'. induction c as [| x c IH]; intros c'; cbn.
  - unfold target; cbn. destruct (update _) as [d' |]; cbn; [| done].
    intros [= <-]. exists d'. split; [done |]. by left.
  - unfold target, find_one; cbn. destruct (matches field s x) eqn:Hx; cbn.
    + destruct (update x) as [d' |]; cbn; [| done].
      intros [= <-]. exists d'. split; [done |]. right.
      exists [], x, c. by repeat split.
    + destruct (update_one field s update c) as [c'' |]; cbn; [| done].
      intros [= <-]. destruct (IH c'' eq_refl) as (d' & Hupd & Hcase).
      exists d'. split; [exact Hupd |].
      destruct Hcase as [[Hnone ->] | (pre & d & post & -> & Hfind & Hpre & ->)].
      * left. split; [exact Hnone | done].
      * right. exists (x :: pre), d, post. repeat split; try done.
        by constructor.
Qed.

Lemma update_one_total field s update c d' :
  update (target field s c) = Ok d' ->
  exists c', update_one field s update c = Ok c'.
Proof.
  induction c as [| x c IH]; cbn.
  - unfold target; cbn. intros ->. by eexists.
  - unfold target, find_one; cbn. destruct (matches field s x); cbn.
    + intros ->. by eexists.
    + intros H. destruct (IH H) as [c' ->]. by eexists.
Qed.

Lemma update_one_raises field s update c ex :
  update (target field s c) = Raise ex ->
  update_one field s update c = Raise ex.
Proof.
  induction c as [| x c IH]; cbn.
  - unfold target; cbn. by intros ->.
  - unfold target, find_one; cbn. destruct (matches field s x); cbn.
    + by intros ->.
    + intros H. by rewrite (IH H).
Qed.

(** After the update the filter finds the updated document, provided the
    update keeps it matching. *)
Lemma update_one_find field s update c c' :
  update_one field s update c = Ok c' ->
  (forall d d', matches field s d = true -> update d = Ok d' ->
                matches field s d' = true) ->
  exists d', update (target field s c) = Ok d' /\
             find_one field s c' = Some d'.
Proof.
  intros Hupd Hkeep.
  destruct (update_one_inv _ _ _ _ _ Hupd) as (d' & Hd' & Hcase).
  exists d'. split; [exact Hd' |].
  assert (Hm : matches field s d' = true).
  { eapply Hkeep; [apply matches_target | exact Hd']. }
  destruct Hcase as [[Hnone ->] | (pre & d & post & -> & _ & Hpre & ->)].
  - apply find_one_skip; [by apply find_one_none | exact Hm].
  - by apply find_one_skip.
Qed.

Lemma update_one_length field s update c c' :
  update_one field s update c = Ok c' ->
  length c' = match find_one field s c with
              | Some _ => length c
              | None => S (length c)
              end.
Proof.
  intros Hupd.
  destruct (update_one_inv _ _ _ _ _ Hupd) as (d' & _ & Hcase).
  destruct Hcase as [[-> ->] | (pre & d & post & -> & -> & _ & ->)].
  - rewrite length_app. cbn. lia.
  - rewrite !length_app. reflexivity.
Qed.

End StoreFacts.

(** ** Update operators *)

Section UpdateFacts.
Local Open Scope string_scope.

Implicit Types d : gmap string value.
Implicit Types c : list (gmap string value).

Lemma update_one_Forall (P : gmap string value -> Prop) field s update c c' :
  Forall P c -> P {[field := VStr s]} ->
  (forall d d', P d -> update d = Ok d' -> P d') ->
  update_one field s update c = Ok c' -> Forall P c'.
Proof.
  intros Hc Hnew Hkeep Hupd.
  destruct (update_one_inv _ _ _ _ _ Hupd) as (d' & Hd' & Hcase).
  destruct Hcase as [[Hnone ->] | (pre & d & post & -> & Hfind & _ & ->)].
  - apply Forall_app. split; [exact Hc |]. constructor; [| constructor].
    eapply Hkeep; [| exact Hd']. unfold target. by rewrite Hnone.
  - apply Forall_app in Hc as [Hpre [Hd Hpost]%Forall_cons].
    apply Forall_app. split; [exact Hpre |]. constructor; [| exact Hpost].
    eapply Hkeep; [| exact Hd']. unfold target. by rewrite Hfind.
Qed.

(** An update that leaves a field alone leaves it alone in the whole
    collection; at most one document, made of the filter, is added. *)
Lemma update_one_frame (key : string) field s update c c' :
  (forall d d', update d = Ok d' -> d' !! key = d !! key) ->
  update_one field s update c = Ok c' ->
  let read := fun d : gmap string value => d !! key in
  read <$> c' = read <$> c \/
  read <$> c' = ((read <$> c) ++ [read {[field := VStr s]}])%list.
Proof.
  intros Hkeep Hupd read.
  destruct (update_one_inv _ _ _ _ _ Hupd) as (d' & Hd' & Hcase).
  destruct Hcase as [[Hnone ->] | (pre & d & post & -> & Hfind & _ & ->)].
  - right. rewrite fmap_app. cbn. unfold read at 2.
    rewrite (Hkeep _ _ Hd'). unfold target. by rewrite Hnone.
  - left. rewrite !fmap_app. cbn. unfold read at 2.
    rewrite (Hkeep _ _ Hd'). unfold target. by rewrite Hfind.
Qed.

Lemma set_fields_singleton_ne (key other : string) v d :
  key <> other -> set_fields {[other := v]} d !! key = d !! key.
Proof.
  intros Hne. unfold set_fields.
  rewrite lookup_union_r; [done |]. by apply lookup_singleton_ne.
Qed.

Lemma set_fields_singleton_eq (key : string) v d :
  set_fields {[key := v]} d !! key = Some v.
Proof.
  unfold set_fields. apply lookup_union_Some_l, lookup_singleton_eq.
Qed.

Lemma add_to_set_other (key field s : string) d d' :
  key <> field -> add_to_set field s d = Ok d' -> d' !! key = d !! key.
Proof.
  intros Hne. unfold add_to_set.
  destruct (d !! field) as [[] |]; try discriminate.
  - destruct (existsb _ _); intros [= <-]; [done |].
    by rewrite lookup_insert_ne.
  - intros [= <-]. by rewrite lookup_insert_ne.
Qed.

(** [$addToSet] on a missing field or on a list: the list afterwards holds
    the string, and holds it once if the list had no duplicates. *)
Lemma add_to_set_list field s d :
  match d !! field with
  | None => True
  | Some (VList l) => NoDup l
  | Some _ => False
  end ->
  exists d' l',
    add_to_set field s d = Ok d' /\ d' !! field = Some (VList l') /\
    In (VStr s) l' /\ NoDup l' /\
    (forall l, d !! field = Some (VList l) -> In (VStr s) l -> d' = d).
Proof.
  unfold add_to_set. destruct (d !! field) as [[] |] eqn:Hfield; try done.
  - intros Hnodup. destruct (existsb (is_str s) l) eqn:Hin.
    + exists d, l. apply existsb_is_str in Hin. by repeat split.
    + exists (<[field := VList (l ++ [VStr s])]> d), (l ++ [VStr s])%list.
      assert (Hnotin : ~ In (VStr s) l).
      { intros H. apply existsb_is_str in H. congruence. }
      repeat split.
      * apply lookup_insert_eq.
      * apply in_or_app. right. by left.
      * apply NoDup_app. repeat split; [exact Hnodup | | apply NoDup_singleton].
        intros x Hx Hx'. apply list_elem_of_In in Hx.
        apply list_elem_of_singleton in Hx'. congruence.
      * intros l0 [= <-] H. contradiction.
  - intros _. exists (<[field := VList [VStr s]]> d), [VStr s].
    repeat split.
    + apply lookup_insert_eq.
    + by left.
    + apply NoDup_singleton.
    + discriminate.
Qed.

Lemma set_path_other (key : string) p rest v d d' :
  key <> p -> set_path (p :: rest) v d = Ok d' -> d' !! key = d !! key.
Proof.
  intros Hne. cbn. destruct (p =? ""); [done |].
  destruct rest as [| q rest].
  - intros [= <-]. by rewrite lookup_insert_ne.
  - destruct (d !! p) as [[] |]; try discriminate.
    + destruct (set_path (q :: rest) v d0); cbn; [| done].
      intros [= <-]. by rewrite lookup_insert_ne.
    + destruct (set_path (q :: rest) v ∅); cbn; [| done].
      intros [= <-]. by rewrite lookup_insert_ne.
Qed.

Lemma split_dots_quiz lesson_id :
  split_dots ("quiz_scores." ++ lesson_id) = "quiz_scores" :: split_dots lesson_id.
Proof. reflexivity. Qed.

Lemma exactly_once s l :
  NoDup l -> In (VStr s) l -> length (List.filter (is_str s) l) = 1.
Proof.
  intros Hnodup. induction Hnodup as [| x l Hx Hnodup IH]; [done |].
  cbn. destruct (is_str s x) eqn:Hstr.
  - apply is_str_true in Hstr as ->. intros _. cbn. f_equal.
    apply length_zero_iff_nil.
    destruct (List.filter (is_str s) l) as [| y ys] eqn:Hfilter; [done |].
    assert (Hy : In y (List.filter (is_str s) l)) by (rewrite Hfilter; by left).
    apply filter_In in Hy as [Hy Hys]. apply is_str_true in Hys as ->.
    apply list_elem_of_In in Hy. contradiction.
  - intros [-> | Hin]; [| by apply IH].
    assert (is_str s (VStr s) = true) by by apply is_str_true. congruence.
Qed.

End UpdateFacts.

(** ** Lesson generation *)

Section LessonFacts.
Local Open Scope string_scope.

Variable json_loads : string -> option value.
Variable exn_str : exn -> string.


Lemma lesson_id_of_slug module_id topic :
  lesson_id_of module_id topic = module_id ++ "_" ++ spec_slug topic.
Proof. reflexivity. Qed.

Lemma build_lesson_fields e request lesson_content lesson :
  build_lesson e request lesson_content = Ok lesson ->
  dom lesson = lesson_fields /\
  lesson !! "id" =
    Some (VStr (lesson_id_of (lgr_module_id request) (lgr_topic request))).
Proof.
  unfold build_lesson. destruct lesson_content; try discriminate.
  cbn. intros [= <-]. split.
  - rewrite !dom_insert_L, dom_empty_L. unfold lesson_fields. set_solver.
  - apply lookup_insert_eq.
Qed.

Lemma set_fields_keeps_match field s fields d :
  fields !! field = Some (VStr s) -> matches field s (set_fields fields d) = true.
Proof.
  intros H. unfold matches, set_fields.
  rewrite (lookup_union_Some_l _ _ _ _ H). cbn. apply String.eqb_refl.
Qed.

(** What a successful [generate_lesson] did. *)
Lemma generate_lesson_inv e request s lesson s' :
  generate_lesson json_loads exn_str e request s = (Ok lesson, s') ->
  let lesson_id := lesson_id_of (lgr_module_id request) (lgr_topic request) in
  dom lesson = lesson_fields /\
  lesson !! "id" = Some (VStr lesson_id) /\
  progress s' = progress s /\ simulations s' = simulations s /\
  find_one "id" lesson_id (lessons s') =
    Some (set_fields lesson (target "id" lesson_id (lessons s))) /\
  length (lessons s') = match find_one "id" lesson_id (lessons s) with
                        | Some _ => length (lessons s)
                        | None => S (length (lessons s))
                        end.
Proof.
  unfold generate_lesson.
  destruct (generate_lesson_content _ _ e _ _) as [lesson_content |]; cbn; [| done].
  destruct (build_lesson e request lesson_content) as [built |] eqn:Hbuilt;
    cbn; [| done].
  destruct (update_one _ _ _ _) as [lessons' |] eqn:Hupd; [| done].
  intros [= <- <-]. cbn.
  destruct (build_lesson_fields _ _ _ _ Hbuilt) as [Hdom Hid].
  repeat split; try done.
  - destruct (update_one_find _ _ _ _ _ Hupd) as (d' & Hd' & Hfind).
    + intros d d' _ [= <-]. by apply set_fields_keeps_match.
    + injection Hd' as <-. exact Hfind.
  - by apply update_one_length in Hupd.
Qed.


(** C5 as amended: the id is the module id as given, an underscore, and
    the slug of the topic (lowercase, spaces to underscores).  Two calls
    with the same module id and topics of the same slug, whatever their
    letter case, target that one id: the second call adds no record, and
    every field the first call stored holds the second call's value. *)
Theorem generate_lesson_upsert e1 e2 r1 r2 s s1 s2 l1 l2 :
  lgr_module_id r1 = lgr_module_id r2 ->
  spec_slug (lgr_topic r1) = spec_slug (lgr_topic r2) ->
  generate_lesson json_loads exn_str e1 r1 s = (Ok l1, s1) ->
  generate_lesson json_loads exn_str e2 r2 s1 = (Ok l2, s2) ->
  let lesson_id := lgr_module_id r1 ++ "_" ++ spec_slug (lgr_topic r1) in
  l1 !! "id" = Some (VStr lesson_id) /\
  l2 !! "id" = Some (VStr lesson_id) /\
  length (lessons s2) = length (lessons s1) /\
  exists d1 d2,
    find_one "id" lesson_id (lessons s1) = Some d1 /\
    find_one "id" lesson_id (lessons s2) = Some d2 /\
    l1 ⊆ d1 /\ l2 ⊆ d2 /\
    (forall field, is_Some (l1 !! field) -> d2 !! field = l2 !! field).
Proof.
  intros Hmodule Hslug H1 H2 lesson_id.
  apply generate_lesson_inv in H1 as (Hdom1 & Hid1 & _ & _ & Hfind1 & _).
  apply generate_lesson_inv in H2 as (Hdom2 & Hid2 & _ & _ & Hfind2 & Hlen2).
  rewrite lesson_id_of_slug in *.
  rewrite <- Hmodule, <- Hslug in Hid2, Hfind2, Hlen2.
  fold lesson_id in Hid1, Hid2, Hfind1, Hfind2, Hlen2.
  rewrite Hfind1 in Hlen2.
  repeat split; try assumption.
  eexists _, _. split; [exact Hfind1 |]. split; [exact Hfind2 |].
  split; [apply map_union_subseteq_l |]. split; [apply map_union_subseteq_l |].
  intros field Hfield. apply elem_of_dom in Hfield.
  rewrite Hdom1, <- Hdom2 in Hfield. apply elem_of_dom in Hfield as [v Hv].
  rewrite Hv. unfold set_fields. by apply lookup_union_Some_l.
Qed.


(** C8, what the code does: the missing credential raises inside the
    [try] whose handler wraps every exception, so the caller receives the
    same status and the same [Failed to generate lesson] wrapper as for a
    failure of the collaborator; the detail differs only by the text of
    the wrapped exception.  Neither path stores a lesson. *)
Theorem generation_failures_share_one_response e e' request s key ex :
  api_key e = None \/ api_key e = Some "" ->
  api_key e' = Some key -> key <> "" ->
  send_message e' (lgr_topic request) (lgr_difficulty request) = Raise ex ->
  generate_lesson json_loads exn_str e request s =
    (Raise (HTTPException 500
       ("Failed to generate lesson: " ++
        exn_str (HTTPException 500 "API key not configured"))), s) /\
  generate_lesson json_loads exn_str e' request s =
    (Raise (HTTPException 500
       ("Failed to generate lesson: " ++ exn_str ex)), s).
Proof.
  intros Hmissing Hkey Hne Hthrow. split.
  - unfold generate_lesson, generate_lesson_content.
    destruct Hmissing as [-> | ->]; reflexivity.
  - unfold generate_lesson, generate_lesson_content. rewrite Hkey.
    apply String.eqb_neq in Hne. rewrite Hne, Hthrow. reflexivity.
Qed.

End LessonFacts.

(** ** Progress *)

Section ProgressFacts.
Local Open Scope string_scope.

Implicit Types d : gmap string value.

Lemma doc_ok_filter : doc_ok {["user_id" := VStr "default_user"]}.
Proof. unfold doc_ok. by rewrite lookup_singleton_ne. Qed.

Lemma doc_ok_target s :
  progress_ok s -> doc_ok (target "user_id" "default_user" (progress s)).
Proof.
  intros Hok. unfold target, find_one.
  destruct (find _ _) as [d |] eqn:Hfind; cbn; [| apply doc_ok_filter].
  apply find_some in Hfind as [Hin _].
  unfold progress_ok in Hok. rewrite Forall_forall in Hok.
  apply Hok. by apply list_elem_of_In.
Qed.

Lemma completion_keeps_user e lesson_id d d' :
  matches "user_id" "default_user" d = true ->
  completion e lesson_id d = Ok d' ->
  matches "user_id" "default_user" d' = true.
Proof.
  unfold completion. intros Hm.
  destruct (add_to_set _ _ d) as [d1 |] eqn:Hadd; cbn; [| done].
  intros [= <-]. unfold matches in *.
  rewrite set_fields_singleton_ne by done.
  rewrite (add_to_set_other "user_id" "completed_lessons" lesson_id d d1);
    done.
Qed.

(** One completion on a well-formed record: it succeeds, the list holds
    the lesson once, and the time is refreshed. *)
Lemma complete_lesson_once e lesson_id s :
  progress_ok s ->
  exists s' d' l',
    complete_lesson e lesson_id s =
      (Ok (<["success" := VBool true]> (<["lesson_id" := VStr lesson_id]> ∅)), s') /\
    lessons s' = lessons s /\ simulations s' = simulations s /\
    user_progress s' = Some d' /\
    d' !! "completed_lessons" = Some (VList l') /\
    d' !! "last_active" = Some (VDate (now e)) /\
    In (VStr lesson_id) l' /\ NoDup l' /\
    (In (VStr lesson_id) (completed_lessons s) -> l' = completed_lessons s).
Proof.
  intros Hok. pose proof (doc_ok_target s Hok) as Htarget.
  destruct (add_to_set_list "completed_lessons" lesson_id _ Htarget)
    as (d1 & l' & Hadd & Hl' & Hin & Hnodup & Hsame).
  assert (Hcompletion : completion e lesson_id
            (target "user_id" "default_user" (progress s)) =
          Ok (set_fields {["last_active" := VDate (now e)]} d1)).
  { unfold completion. by rewrite Hadd. }
  destruct (update_one_total _ _ _ _ _ Hcompletion) as [progress' Hupd].
  destruct (update_one_find _ _ _ _ _ Hupd (completion_keeps_user e lesson_id))
    as (d' & Hd' & Hfind).
  rewrite Hcompletion in Hd'. injection Hd' as <-.
  unfold complete_lesson. fold (completion e lesson_id). rewrite Hupd.
  eexists _, _, l'. split; [reflexivity |]. cbn.
  repeat split; try done.
  - by rewrite set_fields_singleton_ne.
  - apply set_fields_singleton_eq.
  - unfold completed_lessons, user_progress. unfold target in Hsame.
    destruct (find_one _ _ (progress s)) as [d |]; cbn in *; [| done].
    destruct (d !! "completed_lessons") as [[] |] eqn:Hd; try done.
    intros Hl. specialize (Hsame _ eq_refl Hl). subst d1. congruence.
Qed.

Lemma completion_other (key : string) e lesson_id d d' :
  key <> "completed_lessons" -> key <> "last_active" ->
  completion e lesson_id d = Ok d' -> d' !! key = d !! key.
Proof.
  intros Hk1 Hk2. unfold completion.
  destruct (add_to_set _ _ d) as [d1 |] eqn:Hadd; cbn; [| done].
  intros [= <-]. rewrite set_fields_singleton_ne by done.
  by apply (add_to_set_other key "completed_lessons" lesson_id).
Qed.

Lemma grading_other (key : string) e submission d d' :
  key <> "quiz_scores" -> key <> "last_active" ->
  grading e submission d = Ok d' -> d' !! key = d !! key.
Proof.
  intros Hk1 Hk2. unfold grading. rewrite split_dots_quiz.
  destruct (set_path _ _ d) as [d1 |] eqn:Hset; cbn; [| done].
  intros [= <-]. rewrite set_fields_singleton_ne by done.
  by apply (set_path_other key) in Hset.
Qed.

Lemma completion_doc_ok e lesson_id d d' :
  doc_ok d -> completion e lesson_id d = Ok d' -> doc_ok d'.
Proof.
  intros Hok. unfold completion.
  destruct (add_to_set_list "completed_lessons" lesson_id d Hok)
    as (d1 & l' & -> & Hl' & _ & Hnodup & _).
  cbn. intros [= <-]. unfold doc_ok.
  rewrite set_fields_singleton_ne by done. by rewrite Hl'.
Qed.

Lemma grading_doc_ok e submission d d' :
  doc_ok d -> grading e submission d = Ok d' -> doc_ok d'.
Proof.
  intros Hok Hgrade. unfold doc_ok.
  by rewrite (grading_other "completed_lessons" _ _ _ _ ltac:(done) ltac:(done) Hgrade).
Qed.

Lemma doc_ok_default e : doc_ok (default_progress e).
Proof. unfold doc_ok, default_progress. cbn. constructor. Qed.

Lemma generate_lesson_progress json_loads exn_str e request s :
  progress (snd (generate_lesson json_loads exn_str e request s)) = progress s.
Proof.
  unfold generate_lesson.
  destruct (_ ≫= _) as [lesson |]; [| done].
  by destruct (update_one _ _ _ _).
Qed.

Lemma calculate_simulation_progress e sim s :
  progress (snd (calculate_simulation e sim s)) = progress s.
Proof. unfold calculate_simulation. by destruct (simulation_outputs _ _). Qed.

Lemma complete_lesson_progress_ok e lesson_id s :
  progress_ok s -> progress_ok (snd (complete_lesson e lesson_id s)).
Proof.
  intros Hok. unfold progress_ok in *. unfold complete_lesson.
  destruct (update_one _ _ _ _) as [progress' |] eqn:Hupd; cbn; [| done].
  eapply update_one_Forall; [exact Hok | apply doc_ok_filter | | exact Hupd].
  intros d d'. apply completion_doc_ok.
Qed.

(** Every request keeps the progress records well formed. *)
Lemma serve_progress_ok json_loads exn_str e r s :
  progress_ok s -> progress_ok (serve json_loads exn_str e r s).
Proof.
  intros Hok. unfold progress_ok in *. destruct r; cbn.
  - exact Hok.
  - unfold get_lesson. by destruct (find_one _ _ _).
  - by rewrite generate_lesson_progress.
  - unfold get_progress. destruct (find_one _ _ _); cbn; [done |].
    unfold insert_one. apply Forall_app. split; [done |].
    constructor; [apply doc_ok_default | constructor].
  - by apply complete_lesson_progress_ok.
  - unfold submit_quiz.
    destruct (update_one _ _ _ _) as [progress' |] eqn:Hupd; cbn; [| done].
    eapply update_one_Forall; [exact Hok | apply doc_ok_filter | | exact Hupd].
    intros d d'. apply grading_doc_ok.
  - by rewrite calculate_simulation_progress.
Qed.

Lemma reachable_progress_ok json_loads exn_str s0 s :
  progress_ok s0 -> reachable json_loads exn_str s0 s -> progress_ok s.
Proof.
  intros Hok Hreach. induction Hreach as [| e r s _ IH]; [exact Hok |].
  by apply serve_progress_ok.
Qed.

(** C6: on a well-formed progress record, completing the same lesson twice
    succeeds both times and leaves the lesson in the completed list exactly
    once; the second call changes nothing in the list, and each call sets
    [last_active] to its own time. *)
Theorem complete_lesson_idempotent e1 e2 lesson_id s :
  progress_ok s ->
  let ack : gmap string value :=
    <["success" := VBool true]> (<["lesson_id" := VStr lesson_id]> ∅) in
  exists s1 s2,
    complete_lesson e1 lesson_id s = (Ok ack, s1) /\
    complete_lesson e2 lesson_id s1 = (Ok ack, s2) /\
    length (List.filter (is_str lesson_id) (completed_lessons s2)) = 1 /\
    completed_lessons s2 = completed_lessons s1 /\
    last_active s1 = Some (VDate (now e1)) /\
    last_active s2 = Some (VDate (now e2)).
Proof.
  intros Hok ack.
  destruct (complete_lesson_once e1 lesson_id s Hok)
    as (s1 & d1 & l1 & Hrun1 & _ & _ & Huser1 & Hl1 & Hactive1 & Hin1 & Hnodup1 & _).
  assert (Hok1 : progress_ok s1).
  { replace s1 with (snd (complete_lesson e1 lesson_id s)) by by rewrite Hrun1.
    by apply complete_lesson_progress_ok. }
  assert (Hcompleted1 : completed_lessons s1 = l1).
  { unfold completed_lessons. by rewrite Huser1, Hl1. }
  destruct (complete_lesson_once e2 lesson_id s1 Hok1)
    as (s2 & d2 & l2 & Hrun2 & _ & _ & Huser2 & Hl2 & Hactive2 & _ & _ & Hsame).
  assert (Hcompleted2 : completed_lessons s2 = l2).
  { unfold completed_lessons. by rewrite Huser2, Hl2. }
  rewrite Hcompleted1 in Hsame. specialize (Hsame Hin1). subst l2.
  exists s1, s2. repeat split; try done.
  - rewrite Hcompleted2. by apply exactly_once.
  - congruence.
  - unfold last_active. by rewrite Huser1.
  - unfold last_active. by rewrite Huser2.
Qed.

(** C10: on a well-formed progress record [complete_lesson] succeeds for
    every lesson id, echoes it, and puts it in the completed list; the
    lesson store is neither read nor changed, so an id no stored lesson
    carries is accepted like any other. *)
Theorem complete_lesson_accepts_any_id e lesson_id s :
  progress_ok s ->
  exists s',
    complete_lesson e lesson_id s =
      (Ok (<["success" := VBool true]> (<["lesson_id" := VStr lesson_id]> ∅)), s') /\
    In (VStr lesson_id) (completed_lessons s') /\
    lessons s' = lessons s /\
    forall other_lessons,
      complete_lesson e lesson_id (Db other_lessons (progress s) (simulations s)) =
        (Ok (<["success" := VBool true]> (<["lesson_id" := VStr lesson_id]> ∅)),
         Db other_lessons (progress s') (simulations s')).
Proof.
  intros Hok.
  destruct (complete_lesson_once e lesson_id s Hok)
    as (s' & d' & l' & Hrun & Hlessons & Hsims & Huser & Hl' & _ & Hin & _ & _).
  exists s'. repeat split; try done.
  - unfold completed_lessons. by rewrite Huser, Hl'.
  - intros other_lessons. unfold complete_lesson in *. cbn.
    destruct (update_one _ _ _ (progress s)) as [progress' |]; [| done].
    by injection Hrun as <-.
Qed.

(** What a request can do to the [simulations_completed] fields. *)
Lemma serve_simulations_completed json_loads exn_str e r s :
  let before := simulations_completed_fields s in
  let after := simulations_completed_fields (serve json_loads exn_str e r s) in
  after = before \/
  after = (before ++ [None])%list \/
  after = (before ++ [Some (VList [])])%list.
Proof.
  unfold simulations_completed_fields. destruct r; cbn.
  - by left.
  - left. unfold get_lesson. by destruct (find_one _ _ _).
  - left. by rewrite generate_lesson_progress.
  - unfold get_progress. destruct (find_one _ _ _); cbn; [by left |].
    right; right. unfold insert_one. by rewrite fmap_app.
  - unfold complete_lesson.
    destruct (update_one _ _ _ _) as [progress' |] eqn:Hupd; cbn; [| by left].
    eapply (update_one_frame "simulations_completed") in Hupd as [-> | ->].
    + by left.
    + right; left. done.
    + intros d d'. by apply completion_other.
  - unfold submit_quiz.
    destruct (update_one _ _ _ _) as [progress' |] eqn:Hupd; cbn; [| by left].
    eapply (update_one_frame "simulations_completed") in Hupd as [-> | ->].
    + by left.
    + right; left. done.
    + intros d d'. by apply grading_other.
  - left. by rewrite calculate_simulation_progress.
Qed.

(** From a store without progress records, the field is only ever
    missing or the empty list. *)
Lemma simulations_completed_stays_empty json_loads exn_str s0 s :
  progress s0 = [] -> reachable json_loads exn_str s0 s ->
  Forall (fun field => field = None \/ field = Some (VList []))
         (simulations_completed_fields s).
Proof.
  intros Hempty Hreach. induction Hreach as [| e r s _ IH].
  - unfold simulations_completed_fields. rewrite Hempty. constructor.
  - destruct (serve_simulations_completed json_loads exn_str e r s)
      as [-> | [-> | ->]]; [exact IH | |];
      (apply Forall_app; split; [exact IH |]; constructor; [tauto | constructor]).
Qed.

(** C9: whatever the request (a simulation, a completed lesson, a quiz, a
    read of the progress, or any other), the [simulations_completed] field
    of every progress record is what it was.  The only new value is the one
    of a record the request creates: the empty list ([get_progress]) or no
    field at all (an upsert). *)
Theorem simulations_completed_never_written json_loads exn_str e r s :
  let before := simulations_completed_fields s in
  let after := simulations_completed_fields (serve json_loads exn_str e r s) in
  after = before \/
  after = (before ++ [None])%list \/
  after = (before ++ [Some (VList [])])%list.
Proof. apply serve_simulations_completed. Qed.

End ProgressFacts.

(** ** The properties at sample requests *)

Section Witnesses.
Local Open Scope string_scope.
Local Open Scope R_scope.

Lemma emi_zero_months_positive_rate_raises_witness :
  simulation_type (simulation_of "emi_calculator" zero_months_inputs)
    = "emi_calculator" /\
  0 < 10 /\
  calculate_simulation offline_env
    (simulation_of "emi_calculator" zero_months_inputs) empty_db
    = (Raise ZeroDivisionError, empty_db).
Proof.
  split; [reflexivity |]. split; [lra |].
  apply (emi_zero_months_positive_rate_raises _ _ _ 1000 10);
    first [reflexivity | lra].
Defined.

Lemma unrecognized_kind_empty_and_logged_witness :
  ("lottery" ∉ recognized_kinds) /\
  calculate_simulation offline_env (simulation_of "lottery" zero_months_inputs) empty_db =
    (Ok ∅,
     Db [] []
        [<["user_id" := VStr "default_user"]>
         (<["simulation_type" := VStr "lottery"]>
         (<["inputs" := VDoc zero_months_inputs]>
         (<["outputs" := VDoc ∅]>
         (<["created_at" := VDate 0]> ∅))))]).
Proof.
  assert (H : "lottery" ∉ recognized_kinds).
  { unfold recognized_kinds. rewrite !not_elem_of_cons.
    repeat split; try discriminate. apply not_elem_of_nil. }
  split; [exact H |].
  apply (unrecognized_kind_empty_and_logged offline_env
           (simulation_of "lottery" zero_months_inputs) empty_db H).
Defined.




Lemma round2_cents z : round2 (IZR z / 100) = IZR z / 100.
Proof.
  unfold round2. replace (IZR z / 100 * 100) with (IZR z) by lra.
  rewrite round_half_even_IZR. reflexivity.
Qed.


(** The interest-free loan of the specification: 1000 over 10 months at
    rate 0 costs exactly 100 a month, and nothing is divided by zero. *)
Example emi_interest_free :
  exists outputs,
    emi_calculator interest_free_inputs = Ok outputs /\
    outputs !! "emi" = Some (VNum 100) /\
    outputs !! "total_payment" = Some (VNum 1000) /\
    outputs !! "total_interest" = Some (VNum 0).
Proof.
  unfold emi_calculator.
  assert (HP : as_num (get interest_free_inputs "principal" (VNum 0)) = Ok 1000)
    by reflexivity.
  assert (HR : as_num (get interest_free_inputs "rate" (VNum 0)) = Ok 0)
    by reflexivity.
  assert (HM : as_num (get interest_free_inputs "months" (VNum 0)) = Ok 10)
    by reflexivity.
  repeat py_step.
  eexists. split; [reflexivity |].
  rewrite lookup_insert_eq.
  rewrite !lookup_insert_ne by discriminate. rewrite lookup_insert_eq.
  rewrite !lookup_insert_ne by discriminate. rewrite lookup_insert_eq.
  replace (1000 / 10) with (IZR 10000 / 100) by lra.
  replace (IZR 10000 / 100 * 10) with (IZR 100000 / 100) by lra.
  replace (IZR 100000 / 100 - 1000) with (IZR 0 / 100) by lra.
  rewrite !round2_cents.
  repeat split; f_equal; f_equal; lra.
Qed.


(** C5 as stated fails on the module id: it is stored as given, so a
    module id with capitals or spaces is not slugified, and two calls that
    differ only in the case of the module id store two lessons. *)
Lemma lesson_id_keeps_module_id_as_given :
  lesson_id_of "Money Basics" "Saving" = "Money Basics_saving" /\
  lesson_id_of "Money Basics" "Saving" <> spec_lesson_id "Money Basics" "Saving" /\
  lesson_id_of "Money" "Saving" <> lesson_id_of "money" "Saving" /\
  length (lessons
    (snd (generate_lesson reject_all sample_exn_str (prose_env 2)
            (lesson_request "money" "Saving")
            (snd (generate_lesson reject_all sample_exn_str (prose_env 1)
                    (lesson_request "Money" "Saving") empty_db))))) = 2%nat.
Proof.
  split; [reflexivity |]. split; [discriminate |]. split; [discriminate |].
  reflexivity.
Qed.


Lemma generate_lesson_upsert_witness :
  lgr_module_id (lesson_request "money-basics" "Saving Money") =
    lgr_module_id (lesson_request "money-basics" "SAVING MONEY") /\
  spec_slug "Saving Money" = spec_slug "SAVING MONEY" /\
  exists l1 s1 l2 s2,
    generate_lesson reject_all sample_exn_str (prose_env 1)
      (lesson_request "money-basics" "Saving Money") empty_db = (Ok l1, s1) /\
    generate_lesson reject_all sample_exn_str (prose_env 2)
      (lesson_request "money-basics" "SAVING MONEY") s1 = (Ok l2, s2) /\
    l1 !! "id" = Some (VStr "money-basics_saving_money") /\
    l2 !! "id" = Some (VStr "money-basics_saving_money") /\
    length (lessons s2) = length (lessons s1) /\
    exists d1 d2,
      find_one "id" "money-basics_saving_money" (lessons s1) = Some d1 /\
      find_one "id" "money-basics_saving_money" (lessons s2) = Some d2 /\
      l1 ⊆ d1 /\ l2 ⊆ d2 /\
      (forall field, is_Some (l1 !! field) -> d2 !! field = l2 !! field).
Proof.
  split; [reflexivity |]. split; [reflexivity |].
  eexists _, _, _, _. split; [reflexivity |]. split; [reflexivity |].
  apply (generate_lesson_upsert reject_all sample_exn_str
           (prose_env 1) (prose_env 2)
           (lesson_request "money-basics" "Saving Money")
           (lesson_request "money-basics" "SAVING MONEY") empty_db);
    reflexivity.
Defined.


Lemma generation_failures_share_one_response_witness :
  (api_key offline_env = None \/ api_key offline_env = Some "") /\
  api_key (failing_env (HTTPException 500 "API key not configured")) = Some "sk-test" /\
  "sk-test" <> "" /\
  send_message (failing_env (HTTPException 500 "API key not configured"))
    "Saving" "beginner" = Raise (HTTPException 500 "API key not configured") /\
  generate_lesson reject_all sample_exn_str offline_env
    (lesson_request "money-basics" "Saving") empty_db =
    (Raise (HTTPException 500
       ("Failed to generate lesson: " ++
        sample_exn_str (HTTPException 500 "API key not configured"))), empty_db) /\
  generate_lesson reject_all sample_exn_str
    (failing_env (HTTPException 500 "API key not configured"))
    (lesson_request "money-basics" "Saving") empty_db =
    (Raise (HTTPException 500
       ("Failed to generate lesson: " ++
        sample_exn_str (HTTPException 500 "API key not configured"))), empty_db).
Proof.
  split; [by left |]. split; [reflexivity |]. split; [discriminate |].
  split; [reflexivity |].
  apply (generation_failures_share_one_response reject_all sample_exn_str
           offline_env (failing_env (HTTPException 500 "API key not configured"))
           (lesson_request "money-basics" "Saving") empty_db "sk-test");
    first [by left | reflexivity | discriminate].
Defined.

Lemma complete_lesson_idempotent_witness :
  progress_ok empty_db /\
  exists s1 s2,
    complete_lesson (prose_env 1) "money-basics_saving" empty_db =
      (Ok (<["success" := VBool true]>
           (<["lesson_id" := VStr "money-basics_saving"]> ∅)), s1) /\
    complete_lesson (prose_env 2) "money-basics_saving" s1 =
      (Ok (<["success" := VBool true]>
           (<["lesson_id" := VStr "money-basics_saving"]> ∅)), s2) /\
    length (List.filter (is_str "money-basics_saving") (completed_lessons s2)) = 1%nat /\
    completed_lessons s2 = completed_lessons s1 /\
    last_active s1 = Some (VDate 1) /\
    last_active s2 = Some (VDate 2).
Proof.
  assert (H : progress_ok empty_db) by constructor.
  split; [exact H |].
  apply (complete_lesson_idempotent (prose_env 1) (prose_env 2)
           "money-basics_saving" empty_db H).
Defined.

Lemma complete_lesson_accepts_any_id_witness :
  progress_ok empty_db /\
  exists s',
    complete_lesson (prose_env 1) "no-such-lesson" empty_db =
      (Ok (<["success" := VBool true]>
           (<["lesson_id" := VStr "no-such-lesson"]> ∅)), s') /\
    In (VStr "no-such-lesson") (completed_lessons s') /\
    lessons s' = lessons empty_db /\
    forall other_lessons,
      complete_lesson (prose_env 1) "no-such-lesson"
        (Db other_lessons (progress empty_db) (simulations empty_db)) =
        (Ok (<["success" := VBool true]>
             (<["lesson_id" := VStr "no-such-lesson"]> ∅)),
         Db other_lessons (progress s') (simulations s')).
Proof.
  assert (H : progress_ok empty_db) by constructor.
  split; [exact H |].
  apply (complete_lesson_accepts_any_id (prose_env 1) "no-such-lesson" empty_db H).
Defined.

End Witnesses.

(** * Further properties of the engine *)

Section LoanFacts.
Local Open Scope R_scope.
Local Open Scope string_scope.














End LoanFacts.

Section SavingsFacts.
Local Open Scope R_scope.
Local Open Scope string_scope.








End SavingsFacts.

Section BudgetFacts.
Local Open Scope R_scope.
Local Open Scope string_scope.


(** The fold behind [sum(expenses.values())], on the list of entries:
    it adds up numbers, and the only exception it can raise is [TypeError],
    for an amount that is no number. *)
Lemma sum_entries_cases (l : list (string * value)) :
  let folded :=
    foldr (uncurry (fun (_ : string) v acc => a ← acc; py_add a v))
          (Ok (VNum 0)) l in
  let numeric := Forall (fun kv : string * value => exists x, as_num kv.2 = Ok x) l in
  (numeric /\
   folded = Ok (VNum (foldr (fun kv acc => acc + number_of kv.2) 0 l))) \/
  (~ numeric /\ folded = Raise TypeError).
Proof.
  induction l as [| [k v] l IH]; cbn.
  - left. split; [constructor | reflexivity].
  - destruct IH as [[Hall ->] | [Hbad ->]]; cbn.
    + unfold py_add. cbn. destruct (as_num v) as [x | ex] eqn:Hv; cbn.
      * left. split; [constructor; [by exists x | exact Hall] |].
        unfold number_of. by rewrite Hv.
      * right. split.
        -- intros [[x Hx] _]%Forall_cons. cbn in Hx. congruence.
        -- destruct v; cbn in Hv; congruence.
    + right. split; [| reflexivity].
      intros [_ ?]%Forall_cons. contradiction.
Qed.

Lemma sum_values_cases d :
  (all_numbers d /\ sum_values (VDoc d) = Ok (VNum (numbers_total d))) \/
  (~ all_numbers d /\ sum_values (VDoc d) = Raise TypeError).
Proof.
  unfold sum_values, all_numbers, numbers_total.
  rewrite map_fold_foldr, map_Forall_to_list.
  destruct (sum_entries_cases (map_to_list d)) as [[Hall Hsum] | [Hbad Hsum]].
  - left. split; [| exact Hsum].
    eapply Forall_impl; [exact Hall |]. by intros [k v].
  - right. split; [| exact Hsum].
    intros Hall. apply Hbad. eapply Forall_impl; [exact Hall |]. by intros [k v].
Qed.



Lemma simulation_outputs_budget inputs :
  simulation_outputs "budget_builder" inputs = budget_builder inputs.
Proof. reflexivity. Qed.




(** X9: the budget kind rejects expenses it cannot sum, and logs nothing:
    expenses that are no mapping raise [AttributeError], and a mapping with
    an amount that is no number raises [TypeError]. *)
Theorem budget_builder_bad_expenses e sim s :
  simulation_type sim = "budget_builder" ->
  ((forall d, get (inputs sim) "expenses" (VDoc ∅) <> VDoc d) ->
   calculate_simulation e sim s = (Raise AttributeError, s)) /\
  (forall d, get (inputs sim) "expenses" (VDoc ∅) = VDoc d ->
   ~ all_numbers d ->
   calculate_simulation e sim s = (Raise TypeError, s)).
Proof.
  intros Hkind. split.
  - intros Hshape. apply calculate_simulation_raises.
    rewrite Hkind, simulation_outputs_budget. unfold budget_builder.
    destruct (get (inputs sim) "expenses" (VDoc ∅)) eqn:Hexp; try reflexivity.
    by destruct (Hshape d).
  - intros d Hexp Hbad. apply calculate_simulation_raises.
    rewrite Hkind, simulation_outputs_budget. unfold budget_builder.
    rewrite Hexp.
    destruct (sum_values_cases d) as [[Hall _] | [_ ->]]; [contradiction |].
    reflexivity.
Qed.

End BudgetFacts.

Section InterestFacts.
Local Open Scope R_scope.
Local Open Scope string_scope.

(** X10: a compounding frequency of zero makes the compound kind divide by
    zero before anything else is looked at: the request raises
    [ZeroDivisionError] whatever the principal and the time are, and
    nothing is logged. *)
Theorem compound_zero_frequency_raises e sim s Rt :
  simulation_type sim = "compound_interest" ->
  as_num (get (inputs sim) "rate" (VNum 0)) = Ok Rt ->
  as_num (get (inputs sim) "frequency" (VNum 12)) = Ok 0 ->
  calculate_simulation e sim s = (Raise ZeroDivisionError, s).
Proof.
  intros Hkind HR HF. apply calculate_simulation_raises. rewrite Hkind.
  change (compound_interest (inputs sim) = Raise ZeroDivisionError).
  unfold compound_interest. repeat py_step. reflexivity.
Qed.


(** X12: a rate that is no number (a string, a list, null) makes every
    kind that reads a rate raise [TypeError] at its first division, and
    nothing is logged. *)
Theorem non_numeric_rate_raises e sim s :
  simulation_type sim ∈ ["compound_interest"; "simple_interest";
                         "emi_calculator"; "sip_calculator"] ->
  as_num (get (inputs sim) "rate" (VNum 0)) = Raise TypeError ->
  calculate_simulation e sim s = (Raise TypeError, s).
Proof.
  intros Hkind Hrate. apply calculate_simulation_raises.
  assert (Hdiv : py_truediv (get (inputs sim) "rate" (VNum 0)) (VNum 100) =
                 Raise TypeError).
  { unfold py_truediv. by rewrite Hrate. }
  rewrite !elem_of_cons in Hkind.
  destruct Hkind as [-> | [-> | [-> | [-> | Hnone]]]];
    [| | | | by apply elem_of_nil in Hnone].
  - change (compound_interest (inputs sim) = Raise TypeError).
    unfold compound_interest. by rewrite Hdiv.
  - change (simple_interest (inputs sim) = Raise TypeError).
    unfold simple_interest. by rewrite Hdiv.
  - change (emi_calculator (inputs sim) = Raise TypeError).
    unfold emi_calculator. by rewrite Hdiv.
  - change (sip_calculator (inputs sim) = Raise TypeError).
    unfold sip_calculator. by rewrite Hdiv.
Qed.

End InterestFacts.

(** * Further properties of the lesson store *)

Section LessonStoreFacts.
Local Open Scope string_scope.

Variable json_loads : string -> option value.
Variable exn_str : exn -> string.

Implicit Types d : gmap string value.

(** X13: [get_lesson] only reads.  It answers 404 exactly when no stored
    lesson matches the id, and otherwise returns a stored lesson that
    matches it, the first one in store order. *)
Theorem get_lesson_found_iff lesson_id s :
  snd (get_lesson lesson_id s) = s /\
  (fst (get_lesson lesson_id s) = Raise (HTTPException 404 "Lesson not found") <->
   Forall (fun d => matches "id" lesson_id d = false) (lessons s)) /\
  (forall lesson, fst (get_lesson lesson_id s) = Ok lesson ->
     lesson ∈ lessons s /\ matches "id" lesson_id lesson = true /\
     find_one "id" lesson_id (lessons s) = Some lesson).
Proof.
  unfold get_lesson.
  destruct (find_one "id" lesson_id (lessons s)) as [d |] eqn:Hfind; cbn.
  - split; [done |]. split.
    + split; [done |]. intros Hnone%find_one_none. congruence.
    + intros lesson [= <-]. unfold find_one in Hfind.
      apply find_some in Hfind as [Hin Hm]. by rewrite list_elem_of_In.
  - split; [done |]. split; [| done].
    split; [intros _; by apply find_one_none | done].
Qed.

(** X14: a lesson that was generated can be fetched: after a successful
    [generate_lesson], [get_lesson] with the id of the returned lesson
    succeeds, changes nothing, and returns a record holding every field of
    the returned lesson. *)
Theorem generate_then_get_lesson e request s lesson s' :
  generate_lesson json_loads exn_str e request s = (Ok lesson, s') ->
  exists stored,
    get_lesson (lesson_id_of (lgr_module_id request) (lgr_topic request)) s'
      = (Ok stored, s') /\
    lesson ⊆ stored.
Proof.
  intros Hgen.
  apply generate_lesson_inv in Hgen as (_ & _ & _ & _ & Hfind & _).
  eexists. unfold get_lesson. rewrite Hfind. split; [reflexivity |].
  apply map_union_subseteq_l.
Qed.

(** X15: regenerating a lesson keeps what it does not set: the fields of the
    stored record that are not among the eleven fields of a generated
    lesson survive the upsert unchanged. *)
Theorem generate_lesson_keeps_other_fields e request s lesson s' old :
  generate_lesson json_loads exn_str e request s = (Ok lesson, s') ->
  find_one "id" (lesson_id_of (lgr_module_id request) (lgr_topic request))
    (lessons s) = Some old ->
  exists stored,
    find_one "id" (lesson_id_of (lgr_module_id request) (lgr_topic request))
      (lessons s') = Some stored /\
    length (lessons s') = length (lessons s) /\
    forall field, field ∉ lesson_fields -> stored !! field = old !! field.
Proof.
  intros Hgen Hold.
  apply generate_lesson_inv in Hgen as (Hdom & _ & _ & _ & Hfind & Hlen).
  rewrite Hold in Hlen. unfold target in Hfind. rewrite Hold in Hfind.
  eexists. split; [exact Hfind |]. split; [exact Hlen |].
  intros field Hfield. cbn. unfold set_fields.
  apply lookup_union_r. apply not_elem_of_dom. by rewrite Hdom.
Qed.

(** X16: [get_module_lessons] only reads, returns at most 100 records, each
    a stored lesson matching the module id, and misses none when the store
    holds at most 100 lessons. *)
Theorem get_module_lessons_sound module_id s :
  exists found,
    get_module_lessons module_id s = (Ok found, s) /\
    (length found <= 100)%nat /\
    (forall d, d ∈ found ->
       d ∈ lessons s /\ matches "module_id" module_id d = true) /\
    ((length (lessons s) <= 100)%nat ->
     forall d, d ∈ lessons s -> matches "module_id" module_id d = true ->
       d ∈ found).
Proof.
  eexists. split; [reflexivity |]. unfold find_to_list.
  split; [rewrite length_take; lia |]. split.
  - intros d Hd. apply (subseteq_take 100) in Hd.
    apply list_elem_of_In, filter_In in Hd.
    by rewrite list_elem_of_In.
  - intros Hsmall d Hin Hm. rewrite take_ge.
    + apply list_elem_of_In, filter_In. by rewrite <- list_elem_of_In.
    + pose proof (List.filter_length_le (matches "module_id" module_id) (lessons s)).
      lia.
Qed.

End LessonStoreFacts.

Section GenerationFacts.
Local Open Scope string_scope.

Variable json_loads : string -> option value.
Variable exn_str : exn -> string.

Implicit Types d : gmap string value.

Lemma generate_lesson_content_reply e topic difficulty key response :
  api_key e = Some key -> key <> "" ->
  send_message e topic difficulty = Ok response ->
  generate_lesson_content json_loads exn_str e topic difficulty =
    Ok (match json_loads response with
        | Some lesson_data => lesson_data
        | None => VDoc (fallback_lesson topic response)
        end).
Proof.
  intros Hkey Hne Hreply. unfold generate_lesson_content.
  apply String.eqb_neq in Hne. by rewrite Hkey, Hne, Hreply.
Qed.

(** X17: a reply that parses as JSON but is no object (a list, a number, a
    string, null) is not caught by the fallback: [generate_lesson] raises
    [AttributeError] outside the wrapper, and stores nothing. *)
Theorem non_object_reply_raises e request s key response parsed :
  api_key e = Some key -> key <> "" ->
  send_message e (lgr_topic request) (lgr_difficulty request) = Ok response ->
  json_loads response = Some parsed ->
  (forall d, parsed <> VDoc d) ->
  generate_lesson json_loads exn_str e request s = (Raise AttributeError, s).
Proof.
  intros Hkey Hne Hreply Hparse Hshape. unfold generate_lesson.
  rewrite (generate_lesson_content_reply _ _ _ _ _ Hkey Hne Hreply), Hparse.
  cbn. unfold build_lesson.
  destruct parsed; try reflexivity. by destruct (Hshape d).
Qed.

Lemma build_lesson_fixed e request lesson_content lesson :
  build_lesson e request lesson_content = Ok lesson ->
  lesson !! "id" =
    Some (VStr (lesson_id_of (lgr_module_id request) (lgr_topic request))) /\
  lesson !! "module_id" = Some (VStr (lgr_module_id request)) /\
  lesson !! "duration_minutes" = Some (VNum 3) /\
  lesson !! "quiz_questions" = Some (VList []) /\
  lesson !! "order" = Some (VNum 1) /\
  lesson !! "created_at" = Some (VDate (now e)).
Proof.
  unfold build_lesson. destruct lesson_content; try discriminate.
  cbn. intros [= <-]. repeat split.
Qed.

(** X18: the reply cannot choose the bookkeeping fields: whatever keys the
    generated content carries, the lesson returned has the derived id, the
    requested module id, a duration of 3, no quiz questions, order 1 and
    the time of the call. *)
Theorem generate_lesson_fixed_fields e request s lesson s' :
  generate_lesson json_loads exn_str e request s = (Ok lesson, s') ->
  lesson !! "id" =
    Some (VStr (lesson_id_of (lgr_module_id request) (lgr_topic request))) /\
  lesson !! "module_id" = Some (VStr (lgr_module_id request)) /\
  lesson !! "duration_minutes" = Some (VNum 3) /\
  lesson !! "quiz_questions" = Some (VList []) /\
  lesson !! "order" = Some (VNum 1) /\
  lesson !! "created_at" = Some (VDate (now e)).
Proof.
  unfold generate_lesson.
  destruct (generate_lesson_content _ _ e _ _) as [lesson_content |]; cbn; [| done].
  destruct (build_lesson e request lesson_content) as [built |] eqn:Hbuilt;
    cbn; [| done].
  destruct (update_one _ _ _ _); [| done].
  intros [= <- <-]. by eapply build_lesson_fixed.
Qed.

Lemma substring_prefix n (s : string) :
  exists rest, s = substring 0 n s ++ rest /\
               String.length (substring 0 n s) = Nat.min n (String.length s).
Proof.
  revert s. induction n as [| n IH]; intros s.
  - exists s. by destruct s.
  - destruct s as [| a s]; [by exists "" |].
    destruct (IH s) as (rest & Hs & Hlen). exists rest. cbn.
    split; [| by rewrite Hlen].
    change (String a s = String a (substring 0 n s ++ rest)). by f_equal.
Qed.

(** X19: the content of a degraded lesson is a prefix of the raw reply of at
    most 400 characters: the whole reply when it is shorter, its first 400
    characters otherwise. *)
Theorem fallback_content_is_prefix e topic difficulty key response :
  api_key e = Some key -> key <> "" ->
  send_message e topic difficulty = Ok response ->
  json_loads response = None ->
  exists lesson_data content rest,
    generate_lesson_content json_loads exn_str e topic difficulty =
      Ok (VDoc lesson_data) /\
    lesson_data !! "content" = Some (VStr content) /\
    response = content ++ rest /\
    String.length content = Nat.min 400 (String.length response).
Proof.
  intros Hkey Hne Hreply Hparse.
  rewrite (generate_lesson_content_reply _ _ _ _ _ Hkey Hne Hreply), Hparse.
  destruct (substring_prefix 400 response) as (rest & Hrest & Hlen).
  exists (fallback_lesson topic response), (substring 0 400 response), rest.
  repeat split; assumption.
Qed.

End GenerationFacts.

Section IdFacts.
Local Open Scope string_scope.

Variable json_loads : string -> option value.
Variable exn_str : exn -> string.

Implicit Types d : gmap string value.






Lemma matches_string_id field s i d :
  d !! field = Some (VStr i) -> matches field s d = (i =? s).
Proof. intros H. unfold matches. by rewrite H. Qed.

Lemma generate_lesson_unique_ids e request s :
  unique_ids s ->
  unique_ids (snd (generate_lesson json_loads exn_str e request s)).
Proof.
  intros (ids & Hids & Hnodup). unfold generate_lesson.
  destruct (_ ≫= _) as [lesson |] eqn:Hbuilt; cbn; [| by exists ids].
  destruct (generate_lesson_content _ _ e _ _) as [lesson_content |];
    cbn in Hbuilt; [| done].
  apply build_lesson_fields in Hbuilt as [_ Hid].
  set (lesson_id := lesson_id_of (lgr_module_id request) (lgr_topic request)) in *.
  destruct (update_one _ _ _ _) as [lessons' |] eqn:Hupd; cbn; [| by exists ids].
  apply update_one_inv in Hupd as (d' & Hd' & Hcase). injection Hd' as <-.
  assert (Hnew : set_fields lesson (target "id" lesson_id (lessons s)) !! "id"
                 = Some (VStr lesson_id)).
  { unfold set_fields. by apply lookup_union_Some_l. }
  unfold unique_ids, lesson_ids in *. cbn.
  destruct Hcase as [[Hnone ->] | (pre & d & post & Hs & Hfind & _ & ->)].
  - exists (ids ++ [lesson_id])%list. rewrite !fmap_app, Hids. cbn.
    rewrite Hnew. split; [done |].
    apply NoDup_app. repeat split; [done | | apply NoDup_singleton].
    intros i Hi ->%list_elem_of_singleton.
    apply list_elem_of_lookup in Hi as [j Hj].
    assert (Hlook : ((fun i => Some (VStr i)) <$> ids) !! j = Some (Some (VStr lesson_id)))
      by (by rewrite list_lookup_fmap, Hj).
    rewrite <- Hids, list_lookup_fmap in Hlook.
    destruct (lessons s !! j) as [d |] eqn:Hd; [| done].
    cbn in Hlook. injection Hlook as Hdid.
    apply find_one_none in Hnone. rewrite Forall_forall in Hnone.
    specialize (Hnone d).
    rewrite (matches_string_id _ _ _ _ Hdid), String.eqb_refl in Hnone.
    assert (true = false); [| done].
    apply Hnone. apply list_elem_of_lookup. by exists j.
  - exists ids. split; [| done]. rewrite Hs in Hids.
    rewrite fmap_app in *. cbn in *. rewrite Hnew, <- Hids.
    do 2 f_equal.
    assert (Hlook : ((fun i => Some (VStr i)) <$> ids) !! length pre = Some (d !! "id")).
    { rewrite <- Hids. rewrite lookup_app_r by (by rewrite length_fmap).
      by rewrite length_fmap, Nat.sub_diag. }
    rewrite list_lookup_fmap in Hlook.
    destruct (ids !! length pre) as [i |]; [| done].
    cbn in Hlook. injection Hlook as Hdid. symmetry in Hdid.
    unfold find_one in Hfind. apply find_some in Hfind as [_ Hm].
    rewrite (matches_string_id _ _ _ _ Hdid) in Hm.
    apply String.eqb_eq in Hm. by subst i.
Qed.

Lemma serve_lessons_fixed e r s :
  (forall body, r <> GenerateLesson body) ->
  lessons (serve json_loads exn_str e r s) = lessons s.
Proof.
  intros Hother. destruct r; cbn; try done.
  - unfold get_lesson. by destruct (find_one _ _ _).
  - by destruct (Hother body).
  - unfold get_progress. by destruct (find_one _ _ _).
  - unfold complete_lesson. by destruct (update_one _ _ _ _).
  - unfold submit_quiz. by destruct (update_one _ _ _ _).
  - unfold calculate_simulation. by destruct (simulation_outputs _ _).
Qed.

(** X21: stored lesson ids stay unique: in a store where every lesson has a
    string id and no two share one, every request leaves it so; an upsert
    either rewrites the one record with its id or adds a record with a new
    id. *)
Theorem serve_keeps_lesson_ids_unique e r s :
  unique_ids s -> unique_ids (serve json_loads exn_str e r s).
Proof.
  intros Hunique. destruct r;
    try (unfold unique_ids, lesson_ids in *;
         rewrite serve_lessons_fixed by done; exact Hunique).
  by apply generate_lesson_unique_ids.
Qed.

End IdFacts.

(** * Further properties of the progress record *)

Section ProgressRecordFacts.
Local Open Scope string_scope.

Variable json_loads : string -> option value.
Variable exn_str : exn -> string.

Implicit Types d : gmap string value.

Lemma matches_default_progress e :
  matches "user_id" "default_user" (default_progress e) = true.
Proof. reflexivity. Qed.

(** X22: [get_progress] is get-or-create and idempotent: it returns the
    record already stored and changes nothing, or creates the default
    record with empty lists and the time of the call; a second call returns
    the same record and changes nothing. *)
Theorem get_progress_idempotent e1 e2 s :
  exists d s1,
    get_progress e1 s = (Ok d, s1) /\
    get_progress e2 s1 = (Ok d, s1) /\
    user_progress s1 = Some d /\
    lessons s1 = lessons s /\ simulations s1 = simulations s /\
    match user_progress s with
    | Some found => d = found /\ s1 = s
    | None => d = default_progress e1 /\ progress s1 = (progress s ++ [d])%list
    end.
Proof.
  unfold get_progress, user_progress.
  destruct (find_one "user_id" "default_user" (progress s)) as [found |] eqn:Hfind.
  - exists found, s. rewrite Hfind. by repeat split.
  - eexists _, _. split; [reflexivity |]. cbn [progress lessons simulations].
    assert (Hnew : find_one "user_id" "default_user"
                     (insert_one (default_progress e1) (progress s))
                   = Some (default_progress e1)).
    { unfold insert_one. apply find_one_skip;
        [by apply find_one_none | apply matches_default_progress]. }
    rewrite Hnew. by repeat split.
Qed.

Lemma grading_keeps_user e q d d' :
  matches "user_id" "default_user" d = true ->
  grading e q d = Ok d' ->
  matches "user_id" "default_user" d' = true.
Proof.
  intros Hm Hgrade. unfold matches in *.
  by rewrite (grading_other "user_id" _ _ _ _ ltac:(done) ltac:(done) Hgrade).
Qed.

Lemma all_match_none (c : list (gmap string value)) :
  Forall (fun d => matches "user_id" "default_user" d = true) c ->
  find_one "user_id" "default_user" c = None -> c = [].
Proof.
  intros Hall Hnone. destruct c as [| d c]; [done |].
  apply Forall_cons in Hall as [Hd _]. unfold find_one in Hnone.
  cbn in Hnone. by rewrite Hd in Hnone.
Qed.

Lemma update_one_single_user update s progress' :
  single_user s ->
  (forall d d', matches "user_id" "default_user" d = true ->
     update d = Ok d' -> matches "user_id" "default_user" d' = true) ->
  update_one "user_id" "default_user" update (progress s) = Ok progress' ->
  (length progress' <= 1)%nat /\
  Forall (fun d => matches "user_id" "default_user" d = true) progress'.
Proof.
  intros [Hlen Hall] Hkeep Hupd. split.
  - rewrite (update_one_length _ _ _ _ _ Hupd).
    destruct (find_one _ _ (progress s)) eqn:Hfind; [done |].
    by rewrite (all_match_none _ Hall Hfind).
  - eapply (update_one_Forall (fun d => matches "user_id" "default_user" d = true));
      [exact Hall | apply matches_filter | exact Hkeep | exact Hupd].
Qed.

Lemma serve_single_user e r s :
  single_user s -> single_user (serve json_loads exn_str e r s).
Proof.
  intros Hsingle. destruct r; cbn.
  - exact Hsingle.
  - unfold get_lesson. by destruct (find_one _ _ _).
  - unfold single_user. by rewrite generate_lesson_progress.
  - unfold get_progress.
    destruct (find_one _ _ _) eqn:Hfind; cbn; [done |].
    destruct Hsingle as [_ Hall]. unfold single_user. cbn.
    rewrite (all_match_none _ Hall Hfind). cbn.
    split; [lia |]. constructor; [apply matches_default_progress | constructor].
  - unfold complete_lesson.
    destruct (update_one _ _ _ _) as [progress' |] eqn:Hupd; cbn; [| done].
    eapply update_one_single_user; [done | | exact Hupd].
    apply completion_keeps_user.
  - unfold submit_quiz.
    destruct (update_one _ _ _ _) as [progress' |] eqn:Hupd; cbn; [| done].
    eapply update_one_single_user; [done | | exact Hupd].
    apply grading_keeps_user.
  - unfold single_user. by rewrite calculate_simulation_progress.
Qed.

(** X23: there is never more than one progress record: starting from a
    store with at most one record, which is the implicit user's, whatever
    requests are served, the store has at most one record and it is the
    implicit user's. *)
Theorem at_most_one_progress_record s0 s :
  single_user s0 ->
  reachable json_loads exn_str s0 s ->
  single_user s.
Proof.
  intros Hstart Hreach. induction Hreach as [| e r s _ IH]; [exact Hstart |].
  by apply serve_single_user.
Qed.

End ProgressRecordFacts.

Section QuizFacts.
Local Open Scope string_scope.

Variable json_loads : string -> option value.
Variable exn_str : exn -> string.

Implicit Types d : gmap string value.







(** X25: a quiz for the empty lesson id is refused: the path
    [quiz_scores.] ends in an empty field name, so the store rejects the
    update, [submit_quiz] raises, and nothing is written. *)
Theorem submit_quiz_empty_lesson_id e q s :
  qs_lesson_id q = "" ->
  submit_quiz e q s = (Raise WriteError, s).
Proof.
  intros Hempty. unfold submit_quiz.
  assert (Hrefused : grading e q (target "user_id" "default_user" (progress s))
                     = Raise WriteError).
  { unfold grading. rewrite Hempty, split_dots_quiz. cbn.
    by repeat case_match. }
  by rewrite (update_one_raises _ _ _ _ _ Hrefused).
Qed.

End QuizFacts.

Section CompletionFacts.
Local Open Scope string_scope.

Variable json_loads : string -> option value.
Variable exn_str : exn -> string.

Implicit Types d : gmap string value.

(** X26: completing a lesson keeps every earlier completion in place: on a
    well-formed progress record the completed list afterwards is the list
    before when the lesson was already in it, and the list before with the
    lesson appended otherwise. *)
Theorem complete_lesson_appends e lesson_id s :
  progress_ok s ->
  completed_lessons (snd (complete_lesson e lesson_id s)) =
    if existsb (is_str lesson_id) (completed_lessons s)
    then completed_lessons s
    else (completed_lessons s ++ [VStr lesson_id])%list.
Proof.
  intros Hok. pose proof (doc_ok_target s Hok) as Htarget.
  set (d0 := target "user_id" "default_user" (progress s)) in *.
  assert (Hbefore : completed_lessons s =
                    match d0 !! "completed_lessons" with
                    | Some (VList l) => l
                    | _ => []
                    end).
  { unfold completed_lessons, user_progress, d0, target.
    destruct (find_one _ _ _); cbn; [done |]. by rewrite lookup_singleton_ne. }
  destruct (add_to_set "completed_lessons" lesson_id d0) as [d1 |] eqn:Hadd.
  2: { unfold add_to_set, doc_ok in *.
       by destruct (d0 !! "completed_lessons") as [[] |]; try done;
         destruct (existsb _ _). }
  assert (Hcompletion : completion e lesson_id d0 =
                        Ok (set_fields {["last_active" := VDate (now e)]} d1)).
  { unfold completion. by rewrite Hadd. }
  destruct (update_one_total _ _ _ _ _ Hcompletion) as [progress' Hupd].
  destruct (update_one_find _ _ _ _ _ Hupd (completion_keeps_user e lesson_id))
    as (d' & Hd' & Hfind).
  fold d0 in Hd'. rewrite Hcompletion in Hd'. injection Hd' as <-.
  unfold complete_lesson. rewrite Hupd. cbn [snd].
  unfold completed_lessons at 1, user_progress. cbn [progress]. rewrite Hfind.
  rewrite set_fields_singleton_ne by done. rewrite Hbefore.
  unfold add_to_set, doc_ok in *.
  destruct (d0 !! "completed_lessons") as [[] |] eqn:Hfield; try done.
  - destruct (existsb (is_str lesson_id) l); injection Hadd as <-.
    + by rewrite Hfield.
    + by rewrite lookup_insert_eq.
  - injection Hadd as <-. by rewrite lookup_insert_eq.
Qed.

(** X27: a completion shows in the progress read next: after
    [complete_lesson] on a well-formed record, [get_progress] creates
    nothing and returns a record whose completed list holds the lesson. *)
Theorem complete_then_get_progress e e' lesson_id s :
  progress_ok s ->
  exists s' d l,
    snd (complete_lesson e lesson_id s) = s' /\
    get_progress e' s' = (Ok d, s') /\
    d !! "completed_lessons" = Some (VList l) /\
    In (VStr lesson_id) l /\
    d !! "last_active" = Some (VDate (now e)).
Proof.
  intros Hok.
  destruct (complete_lesson_once e lesson_id s Hok)
    as (s' & d' & l' & Hrun & _ & _ & Huser & Hl' & Hactive & Hin & _ & _).
  exists s', d', l'. rewrite Hrun. split; [done |].
  unfold get_progress. unfold user_progress in Huser. rewrite Huser.
  done.
Qed.

(** X28: the two progress writers keep to their own field: a request other
    than [complete_lesson] leaves the [completed_lessons] field of every
    progress record as it was, and a request other than [submit_quiz]
    leaves [quiz_scores] as it was; a record the request creates has the
    field empty or not at all. *)
Theorem progress_fields_have_one_writer e r s :
  let read key (c : list (gmap string value)) := (fun d => d !! key) <$> c in
  let s' := serve json_loads exn_str e r s in
  ((forall lesson_id, r <> CompleteLesson lesson_id) ->
   read "completed_lessons" (progress s') = read "completed_lessons" (progress s) \/
   read "completed_lessons" (progress s') =
     (read "completed_lessons" (progress s) ++ [None])%list \/
   read "completed_lessons" (progress s') =
     (read "completed_lessons" (progress s) ++ [Some (VList [])])%list) /\
  ((forall body, r <> SubmitQuiz body) ->
   read "quiz_scores" (progress s') = read "quiz_scores" (progress s) \/
   read "quiz_scores" (progress s') =
     (read "quiz_scores" (progress s) ++ [None])%list \/
   read "quiz_scores" (progress s') =
     (read "quiz_scores" (progress s) ++ [Some (VDoc ∅)])%list).
Proof.
  intros read s'. subst s'. split; intros Hother; destruct r; cbn.
  - by left.
  - left. unfold get_lesson. by destruct (find_one _ _ _).
  - left. by rewrite generate_lesson_progress.
  - unfold get_progress. destruct (find_one _ _ _); cbn; [by left |].
    right; right. unfold insert_one, read. by rewrite fmap_app.
  - by destruct (Hother lesson_id).
  - unfold submit_quiz.
    destruct (update_one _ _ _ _) as [progress' |] eqn:Hupd; cbn; [| by left].
    eapply (update_one_frame "completed_lessons") in Hupd as [Hsame | Hnew].
    + left. exact Hsame.
    + right; left. exact Hnew.
    + intros d d'. by apply grading_other.
  - left. by rewrite calculate_simulation_progress.
  - by left.
  - left. unfold get_lesson. by destruct (find_one _ _ _).
  - left. by rewrite generate_lesson_progress.
  - unfold get_progress. destruct (find_one _ _ _); cbn; [by left |].
    right; right. unfold insert_one, read. by rewrite fmap_app.
  - unfold complete_lesson.
    destruct (update_one _ _ _ _) as [progress' |] eqn:Hupd; cbn; [| by left].
    eapply (update_one_frame "quiz_scores") in Hupd as [Hsame | Hnew].
    + left. exact Hsame.
    + right; left. exact Hnew.
    + intros d d'. by apply completion_other.
  - by destruct (Hother body).
  - left. by rewrite calculate_simulation_progress.
Qed.

(** X29: each collection has one writer: only [generate_lesson] changes the
    lessons, only [calculate_simulation] changes the simulation history,
    only the three progress handlers change the progress records; and the
    history is append-only, growing by at most one entry per request. *)
Theorem collections_have_one_writer e r s :
  let s' := serve json_loads exn_str e r s in
  ((forall body, r <> GenerateLesson body) -> lessons s' = lessons s) /\
  ((forall body, r <> CalculateSimulation body) ->
   simulations s' = simulations s) /\
  (r <> GetProgress -> (forall lesson_id, r <> CompleteLesson lesson_id) ->
   (forall body, r <> SubmitQuiz body) -> progress s' = progress s) /\
  exists added,
    simulations s' = (simulations s ++ added)%list /\ (length added <= 1)%nat.
Proof.
  intros s'. subst s'. split; [apply serve_lessons_fixed |]. split; [| split].
  - intros Hother. destruct r; cbn; try done.
    + unfold get_lesson. by destruct (find_one _ _ _).
    + unfold generate_lesson. destruct (_ ≫= _); [| done].
      by destruct (update_one _ _ _ _).
    + unfold get_progress. by destruct (find_one _ _ _).
    + unfold complete_lesson. by destruct (update_one _ _ _ _).
    + unfold submit_quiz. by destruct (update_one _ _ _ _).
    + by destruct (Hother body).
  - intros Hget Hcomplete Hquiz. destruct r; cbn; try done.
    + unfold get_lesson. by destruct (find_one _ _ _).
    + by rewrite generate_lesson_progress.
    + by destruct (Hcomplete lesson_id).
    + by destruct (Hquiz body).
    + by rewrite calculate_simulation_progress.
  - assert (Hsame : simulations (serve json_loads exn_str e r s) = simulations s ->
                    exists added,
                      simulations (serve json_loads exn_str e r s) =
                        (simulations s ++ added)%list /\ (length added <= 1)%nat).
    { intros ->. exists []. rewrite app_nil_r. split; [done | cbn; lia]. }
    destruct r.
    + by apply Hsame.
    + apply Hsame. cbn. unfold get_lesson. by destruct (find_one _ _ _).
    + apply Hsame. cbn. unfold generate_lesson. destruct (_ ≫= _); [| done].
      by destruct (update_one _ _ _ _).
    + apply Hsame. cbn. unfold get_progress. by destruct (find_one _ _ _).
    + apply Hsame. cbn. unfold complete_lesson. by destruct (update_one _ _ _ _).
    + apply Hsame. cbn. unfold submit_quiz. by destruct (update_one _ _ _ _).
    + clear Hsame. cbn. unfold calculate_simulation.
      destruct (simulation_outputs _ _); cbn.
      * unfold insert_one. eexists. split; [reflexivity | cbn; lia].
      * exists []. rewrite app_nil_r. split; [done | cbn; lia].
Qed.

End CompletionFacts.

Section ScenarioFacts.
Local Open Scope string_scope.

Variable format_2f : R -> string.

(** X30: an unknown scenario type is no error: it gets the student
    scenario; and only the first-job scenario depends on the income, the
    age being used by none. *)
Theorem get_scenario_falls_back scenario_type income income' age age' :
  scenario_type ∉ ["student"; "first_job"; "tax_planning"] ->
  get_scenario format_2f scenario_type income age = student_scenario /\
  get_scenario format_2f "student" income age = student_scenario /\
  get_scenario format_2f "tax_planning" income age =
    get_scenario format_2f "tax_planning" income' age' /\
  get_scenario format_2f "first_job" income age = first_job_scenario format_2f income.
Proof.
  intros Hunknown. rewrite !not_elem_of_cons in Hunknown.
  destruct Hunknown as (H1 & H2 & H3 & _).
  repeat split. unfold get_scenario, scenarios.
  by rewrite !lookup_insert_ne, lookup_empty by done.
Qed.

End ScenarioFacts.

(** ** The further properties at sample requests *)

Section MoreWitnesses.
Local Open Scope string_scope.
Local Open Scope R_scope.










Lemma budget_builder_bad_expenses_witness :
  simulation_type (simulation_of "budget_builder" listed_expenses_inputs)
    = "budget_builder" /\
  ((forall d, get (inputs (simulation_of "budget_builder" listed_expenses_inputs))
                "expenses" (VDoc ∅) <> VDoc d) ->
   calculate_simulation offline_env
     (simulation_of "budget_builder" listed_expenses_inputs) empty_db
     = (Raise AttributeError, empty_db)) /\
  (forall d, get (inputs (simulation_of "budget_builder" listed_expenses_inputs))
               "expenses" (VDoc ∅) = VDoc d ->
   ~ all_numbers d ->
   calculate_simulation offline_env
     (simulation_of "budget_builder" listed_expenses_inputs) empty_db
     = (Raise TypeError, empty_db)).
Proof.
  split; [reflexivity |].
  apply (budget_builder_bad_expenses offline_env
           (simulation_of "budget_builder" listed_expenses_inputs) empty_db).
  reflexivity.
Defined.

Lemma compound_zero_frequency_raises_witness :
  simulation_type (simulation_of "compound_interest" no_frequency_inputs)
    = "compound_interest" /\
  calculate_simulation offline_env
    (simulation_of "compound_interest" no_frequency_inputs) empty_db
    = (Raise ZeroDivisionError, empty_db).
Proof.
  split; [reflexivity |].
  apply (compound_zero_frequency_raises offline_env
           (simulation_of "compound_interest" no_frequency_inputs) empty_db 10);
    reflexivity.
Defined.


Lemma non_numeric_rate_raises_witness :
  ("simple_interest" ∈ ["compound_interest"; "simple_interest";
                        "emi_calculator"; "sip_calculator"]) /\
  as_num (get text_rate_inputs "rate" (VNum 0)) = Raise TypeError /\
  calculate_simulation offline_env
    (simulation_of "simple_interest" text_rate_inputs) empty_db
    = (Raise TypeError, empty_db).
Proof.
  assert (H : "simple_interest" ∈ ["compound_interest"; "simple_interest";
                                   "emi_calculator"; "sip_calculator"]).
  { apply list_elem_of_further, list_elem_of_here. }
  split; [exact H |]. split; [reflexivity |].
  apply (non_numeric_rate_raises offline_env
           (simulation_of "simple_interest" text_rate_inputs) empty_db H).
  reflexivity.
Defined.


Lemma generate_then_get_lesson_witness :
  exists lesson s',
    generate_lesson reject_all sample_exn_str (prose_env 1)
      (lesson_request "money-basics" "Saving") empty_db = (Ok lesson, s') /\
    exists stored,
      get_lesson (lesson_id_of "money-basics" "Saving") s' = (Ok stored, s') /\
      lesson ⊆ stored.
Proof.
  eexists _, _. split; [reflexivity |].
  eapply (generate_then_get_lesson reject_all sample_exn_str (prose_env 1)
           (lesson_request "money-basics" "Saving") empty_db).
  reflexivity.
Defined.

Lemma generate_lesson_keeps_other_fields_witness :
  exists lesson s',
    generate_lesson reject_all sample_exn_str (prose_env 1)
      (lesson_request "money-basics" "Saving") seeded_db = (Ok lesson, s') /\
    find_one "id" (lesson_id_of "money-basics" "Saving") (lessons seeded_db)
      = Some seeded_lesson /\
    exists stored,
      find_one "id" (lesson_id_of "money-basics" "Saving") (lessons s')
        = Some stored /\
      length (lessons s') = length (lessons seeded_db) /\
      forall field, field ∉ lesson_fields ->
        stored !! field = seeded_lesson !! field.
Proof.
  eexists _, _. split; [reflexivity |]. split; [reflexivity |].
  eapply (generate_lesson_keeps_other_fields reject_all sample_exn_str (prose_env 1)
           (lesson_request "money-basics" "Saving") seeded_db);
    reflexivity.
Defined.

Lemma non_object_reply_raises_witness :
  api_key (prose_env 1) = Some "sk-test" /\ "sk-test" <> "" /\
  send_message (prose_env 1) "Saving" "beginner" = Ok "Here is a lesson about Saving" /\
  parse_as (VList []) "Here is a lesson about Saving" = Some (VList []) /\
  (forall d, VList [] <> VDoc d) /\
  generate_lesson (parse_as (VList [])) sample_exn_str (prose_env 1)
    (lesson_request "money-basics" "Saving") empty_db
    = (Raise AttributeError, empty_db).
Proof.
  split; [reflexivity |]. split; [discriminate |]. split; [reflexivity |].
  split; [reflexivity |]. split; [discriminate |].
  apply (non_object_reply_raises (parse_as (VList [])) sample_exn_str (prose_env 1)
           (lesson_request "money-basics" "Saving") empty_db "sk-test"
           "Here is a lesson about Saving" (VList []));
    first [reflexivity | discriminate].
Defined.

Lemma generate_lesson_fixed_fields_witness :
  exists lesson s',
    generate_lesson reject_all sample_exn_str (prose_env 1)
      (lesson_request "money-basics" "Saving") empty_db = (Ok lesson, s') /\
    lesson !! "id" = Some (VStr (lesson_id_of "money-basics" "Saving")) /\
    lesson !! "module_id" = Some (VStr "money-basics") /\
    lesson !! "duration_minutes" = Some (VNum 3) /\
    lesson !! "quiz_questions" = Some (VList []) /\
    lesson !! "order" = Some (VNum 1) /\
    lesson !! "created_at" = Some (VDate 1).
Proof.
  eexists _, _. split; [reflexivity |].
  eapply (generate_lesson_fixed_fields reject_all sample_exn_str (prose_env 1)
           (lesson_request "money-basics" "Saving") empty_db).
  reflexivity.
Defined.

Lemma fallback_content_is_prefix_witness :
  api_key (prose_env 1) = Some "sk-test" /\ "sk-test" <> "" /\
  send_message (prose_env 1) "Saving" "beginner" = Ok "Here is a lesson about Saving" /\
  reject_all "Here is a lesson about Saving" = None /\
  exists lesson_data content rest,
    generate_lesson_content reject_all sample_exn_str (prose_env 1) "Saving" "beginner"
      = Ok (VDoc lesson_data) /\
    lesson_data !! "content" = Some (VStr content) /\
    "Here is a lesson about Saving" = content ++ rest /\
    String.length content =
      Nat.min 400 (String.length "Here is a lesson about Saving").
Proof.
  split; [reflexivity |]. split; [discriminate |]. split; [reflexivity |].
  split; [reflexivity |].
  apply (fallback_content_is_prefix reject_all sample_exn_str (prose_env 1)
           "Saving" "beginner" "sk-test" "Here is a lesson about Saving");
    first [reflexivity | discriminate].
Defined.

Lemma unique_ids_empty : unique_ids empty_db.
Proof. exists []. split; [reflexivity | constructor]. Defined.

Lemma serve_keeps_lesson_ids_unique_witness :
  unique_ids empty_db /\
  unique_ids (serve reject_all sample_exn_str (prose_env 1)
                (GenerateLesson (lesson_request "money-basics" "Saving")) empty_db).
Proof.
  split; [exact unique_ids_empty |].
  apply (serve_keeps_lesson_ids_unique reject_all sample_exn_str (prose_env 1)
           (GenerateLesson (lesson_request "money-basics" "Saving")) empty_db
           unique_ids_empty).
Defined.

Lemma single_user_empty : single_user empty_db.
Proof. split; [cbn; lia | constructor]. Defined.

Lemma at_most_one_progress_record_witness :
  single_user empty_db /\
  reachable reject_all sample_exn_str empty_db
    (serve reject_all sample_exn_str (prose_env 2) GetProgress
       (serve reject_all sample_exn_str (prose_env 1)
          (CompleteLesson "money-basics_saving") empty_db)) /\
  single_user
    (serve reject_all sample_exn_str (prose_env 2) GetProgress
       (serve reject_all sample_exn_str (prose_env 1)
          (CompleteLesson "money-basics_saving") empty_db)).
Proof.
  assert (Hreach : reachable reject_all sample_exn_str empty_db
    (serve reject_all sample_exn_str (prose_env 2) GetProgress
       (serve reject_all sample_exn_str (prose_env 1)
          (CompleteLesson "money-basics_saving") empty_db))).
  { apply reachable_serve, reachable_serve, reachable_start. }
  split; [exact single_user_empty |]. split; [exact Hreach |].
  apply (at_most_one_progress_record reject_all sample_exn_str empty_db _
           single_user_empty Hreach).
Defined.


Lemma submit_quiz_empty_lesson_id_witness :
  qs_lesson_id (quiz_of "" 80) = "" /\
  submit_quiz (prose_env 1) (quiz_of "" 80) empty_db = (Raise WriteError, empty_db).
Proof.
  split; [reflexivity |].
  apply (submit_quiz_empty_lesson_id (prose_env 1) (quiz_of "" 80) empty_db).
  reflexivity.
Defined.

Lemma complete_lesson_appends_witness :
  progress_ok empty_db /\
  completed_lessons (snd (complete_lesson (prose_env 1) "money-basics_saving" empty_db)) =
    (if existsb (is_str "money-basics_saving") (completed_lessons empty_db)
     then completed_lessons empty_db
     else (completed_lessons empty_db ++ [VStr "money-basics_saving"])%list).
Proof.
  assert (H : progress_ok empty_db) by constructor.
  split; [exact H |].
  apply (complete_lesson_appends (prose_env 1) "money-basics_saving" empty_db H).
Defined.

Lemma complete_then_get_progress_witness :
  progress_ok empty_db /\
  exists s' d l,
    snd (complete_lesson (prose_env 1) "money-basics_saving" empty_db) = s' /\
    get_progress (prose_env 2) s' = (Ok d, s') /\
    d !! "completed_lessons" = Some (VList l) /\
    In (VStr "money-basics_saving") l /\
    d !! "last_active" = Some (VDate 1).
Proof.
  assert (H : progress_ok empty_db) by constructor.
  split; [exact H |].
  apply (complete_then_get_progress (prose_env 1) (prose_env 2)
           "money-basics_saving" empty_db H).
Defined.

Lemma get_scenario_falls_back_witness :
  ("retirement" ∉ ["student"; "first_job"; "tax_planning"]) /\
  get_scenario sample_format "retirement" 50000 20 = student_scenario /\
  get_scenario sample_format "student" 50000 20 = student_scenario /\
  get_scenario sample_format "tax_planning" 50000 20 =
    get_scenario sample_format "tax_planning" 0 65 /\
  get_scenario sample_format "first_job" 50000 20 =
    first_job_scenario sample_format 50000.
Proof.
  assert (H : "retirement" ∉ ["student"; "first_job"; "tax_planning"]).
  { rewrite !not_elem_of_cons. repeat split; try discriminate.
    apply not_elem_of_nil. }
  split; [exact H |].
  apply (get_scenario_falls_back sample_format "retirement" 50000 0 20 65 H).
Defined.

End MoreWitnesses.
